(** * xds-common: the HTTP client of golib/httpclient.go

    A shallow embedding of the session negotiation and request pipeline of
    [HTTPClient] (golib/httpclient.go), and the properties of it that the
    specification states.

    The client is a Go struct mutated through a pointer receiver; here it is
    a record threaded through a small state monad whose outcomes also cover
    a Go run-time panic and the exhaustion of the recursion budget (the pair
    [handleRequest] / [getCidAndCsrf] is mutually recursive in the source
    and bounded by nothing but the answers of the server).  The remote
    server is the sequence of its replies. *)

From Stdlib Require Import ZArith Ascii.
From stdpp Require Import base strings list gmap.

Open Scope string_scope.
Open Scope Z_scope.

(** ** Go strings

    A Go string is a sequence of bytes, as Rocq's [string] is.  Only the
    operations the client uses are given. *)

Module GoString.

(** [s != ""] *)
Definition nonempty (s : string) : bool := negb (String.eqb s "").

(** [strings.HasSuffix(s, suffix)] *)
Definition HasSuffix (s suffix : string) : bool :=
  let n := String.length s in
  let k := String.length suffix in
  (k <=? n)%nat && String.eqb (String.substring (n - k) k s) suffix.

(** Does the byte [b] occur in [cutset]? *)
Fixpoint byte_in (b : ascii) (cutset : string) : bool :=
  match cutset with
  | EmptyString => false
  | String x rest => Ascii.eqb b x || byte_in b rest
  end.

(** [strings.TrimLeft(s, cutset)], for a cutset of ASCII bytes: the
    leading bytes of [s] that occur in [cutset] are removed. *)
Fixpoint TrimLeft (s cutset : string) : string :=
  match s with
  | EmptyString => EmptyString
  | String b rest => if byte_in b cutset then TrimLeft rest cutset else s
  end.

(** The slice expression [s[:n]]: the first [n] bytes of [s]; Go panics
    (slice bounds out of range) when [s] has fewer, which is [None]. *)
Definition slice_to (s : string) (n : nat) : option string :=
  if (n <=? String.length s)%nat then Some (String.substring 0 n s) else None.

(** A format string without the verb marker: [fmt] copies it verbatim. *)
Fixpoint percent_free (s : string) : bool :=
  match s with
  | EmptyString => true
  | String b rest => negb (Ascii.eqb b "%"%char) && percent_free rest
  end.

End GoString.

(** ** HTTP headers: [net/http.Header], a [map[string][]string] whose keys
    are kept in canonical MIME form. *)

Module Header.

Definition is_lower (b : ascii) : bool :=
  let n := Ascii.nat_of_ascii b in ((97 <=? n) && (n <=? 122))%nat.
Definition is_upper (b : ascii) : bool :=
  let n := Ascii.nat_of_ascii b in ((65 <=? n) && (n <=? 90))%nat.
Definition is_digit (b : ascii) : bool :=
  let n := Ascii.nat_of_ascii b in ((48 <=? n) && (n <=? 57))%nat.

(** The bytes of an RFC 7230 token, the ones a header field name is made
    of ([validHeaderFieldByte] of net/textproto). *)
Definition validHeaderFieldByte (b : ascii) : bool :=
  is_lower b || is_upper b || is_digit b
  || GoString.byte_in b "!#$%&'*+-.^_`|~".

Definition to_upper (b : ascii) : ascii :=
  if is_lower b then Ascii.ascii_of_nat (Ascii.nat_of_ascii b - 32) else b.
Definition to_lower (b : ascii) : ascii :=
  if is_upper b then Ascii.ascii_of_nat (Ascii.nat_of_ascii b + 32) else b.

Fixpoint all_bytes (p : ascii -> bool) (s : string) : bool :=
  match s with
  | EmptyString => true
  | String b rest => p b && all_bytes p rest
  end.

(** First letter and every letter after a dash in upper case, the others
    in lower case. *)
Fixpoint canon (upper : bool) (s : string) : string :=
  match s with
  | EmptyString => EmptyString
  | String b rest =>
      let b' := if upper then to_upper b else to_lower b in
      String b' (canon (Ascii.eqb b' "-"%char) rest)
  end.

(** [textproto.CanonicalMIMEHeaderKey]: a name that is not a token is
    returned unchanged. *)
Definition CanonicalMIMEHeaderKey (s : string) : string :=
  if all_bytes validHeaderFieldByte s then canon true s else s.

(** [h.Get(key)]: the first value stored under the canonical form of
    [key], or the empty string. *)
Definition Get (h : gmap string (list string)) (key : string) : string :=
  match h !! CanonicalMIMEHeaderKey key with
  | Some (v :: _) => v
  | _ => ""
  end.

(** [h.Set(key, value)] replaces whatever was stored under [key]. *)
Definition Set_ (h : gmap string (list string)) (key value : string)
  : gmap string (list string) :=
  <[CanonicalMIMEHeaderKey key := [value]]> h.

End Header.

(** ** Data model *)

(** A Go [error] value: [nil], or an error carrying its message. *)
Definition error : Type := option string.
Definition errors_New (msg : string) : error := Some msg.

(** [http.Cookie], the two fields the client reads. *)
Record Cookie : Type := mkCookie { Name : string; Value : string }.

(** [response.Body], an [io.ReadCloser]: the bytes the server sent, and
    whether the stream has been read to its end and closed. *)
Record Body : Type := mkBody { payload : string; drained : bool }.

(** [http.Response], as far as the client looks at it.  [Cookies] is what
    [response.Cookies()] returns: the parsed Set-Cookie headers, in order. *)
Record Response : Type := mkResponse {
  Status : string;
  StatusCode : Z;
  RespHeader : gmap string (list string);
  Cookies : list Cookie;
  RespBody : Body
}.

(** [http.Request], as far as the client builds it. *)
Record Request : Type := mkRequest {
  Method : string;
  URL : string;
  ReqBody : option string;
  ReqHeader : gmap string (list string);
  BasicAuth : option (string * string)
}.

(** What [httpClient.Do] comes back with. *)
Inductive Reply : Type :=
| TransportError (msg : string)
| Answer (response : Response).

(** [HTTPClientConfig] (the log sink is left out). *)
Record HTTPClientConfig : Type := mkConfig {
  URLPrefix : string;
  HeaderAPIKeyName : string;
  Apikey : string;
  HeaderClientKeyName : string;
  CsrfDisable : bool;
  LogLevel : Z;
  LogPrefix : string
}.

(** [HTTPClient] (the log sink and the transport object are left out: the
    transport is the [remote] of the machine below). *)
Record HTTPClient : Type := mkClient {
  LoggerLevel : Z;
  LoggerPrefix : string;
  initDone : bool;
  endpoint : string;
  apikey : string;
  username : string;
  password : string;
  id : string;
  csrf : string;
  conf : HTTPClientConfig
}.

(** A value decoded by [encoding/json] into an [interface{}]. *)
Unset Elimination Schemes.
Inductive JSONValue : Type :=
| JNull
| JBool (b : bool)
| JNumber (text : string)
| JString (s : string)
| JArray (items : list JSONValue)
| JObject (members : list (string * JSONValue)).
Set Elimination Schemes.

(** ** The Go run time the client is linked against

    Library functions whose full behaviour is not restated here are taken as
    an interface, with the laws the development relies on. *)

Class GoRuntime : Type := {
  (** [url.Parse], as [http.NewRequest] calls it: [None] when the URL
      parses, the error otherwise *)
  url_Parse : string -> error;
  (** the contents of a fresh [map[string]interface{}] after
      [json.Unmarshal(bytes, &data)]: empty unless [bytes] is a JSON object *)
  json_Unmarshal : string -> gmap string JSONValue;
  (** [fmt.Sprintf(format)] without operands *)
  fmt_Sprintf : string -> string;
  (** [strings.TrimSpace] *)
  strings_TrimSpace : string -> string;
  fmt_Sprintf_plain :
    forall s, GoString.percent_free s = true -> fmt_Sprintf s = s;
  strings_TrimSpace_empty : strings_TrimSpace "" = ""
}.

(** ** The machine: the client, the server it talks to and what went over
    the wire *)

Record Machine : Type := mkMachine {
  (** the struct behind the receiver [c *HTTPClient] *)
  self : HTTPClient;
  (** the server: its reply to the n-th request dispatched (from 0) *)
  remote : nat -> Reply;
  (** the requests dispatched so far, oldest first *)
  wire : list Request;
  (** how many times [getCidAndCsrf] has been entered (ghost) *)
  bootstraps : nat
}.

(** How a call ends: it returns, it panics, or the recursion budget of the
    model ran out before it did either. *)
Inductive Outcome (A : Type) : Type :=
| Returns (a : A) (m : Machine)
| Panics (m : Machine)
| OutOfFuel.
Arguments Returns {A} a m.
Arguments Panics {A} m.
Arguments OutOfFuel {A}.

Definition Go (A : Type) : Type := Machine -> Outcome A.

Definition ret {A} (a : A) : Go A := fun m => Returns a m.

Definition bind {A B} (x : Go A) (f : A -> Go B) : Go B :=
  fun m =>
    match x m with
    | Returns a m' => f a m'
    | Panics m' => Panics m'
    | OutOfFuel => OutOfFuel
    end.

Declare Scope go_scope.
Delimit Scope go_scope with go.
Notation "x <- c1 ;; c2" := (bind c1 (fun x => c2))
  (at level 100, c1 at next level, right associativity) : go_scope.
Notation "c1 ;; c2" := (bind c1 (fun _ => c2))
  (at level 100, right associativity) : go_scope.
Open Scope go_scope.

Definition panic {A} : Go A := fun m => Panics m.
Definition exhausted {A} : Go A := fun _ => OutOfFuel.

(** The machine with another client struct, with one more request on the
    wire, with one more bootstrap counted. *)
Definition with_self (c : HTTPClient) (m : Machine) : Machine :=
  {| self := c; remote := remote m; wire := wire m; bootstraps := bootstraps m |}.

Definition sent (request : Request) (m : Machine) : Machine :=
  {| self := self m; remote := remote m; wire := wire m ++ [request];
     bootstraps := bootstraps m |}.

Definition entered (m : Machine) : Machine :=
  {| self := self m; remote := remote m; wire := wire m;
     bootstraps := S (bootstraps m) |}.

(** Read the struct behind [c]. *)
Definition this : Go HTTPClient := fun m => Returns (self m) m.

(** Assign to fields of [c]. *)
Definition assign (f : HTTPClient -> HTTPClient) : Go unit :=
  fun m => Returns tt (with_self (f (self m)) m).

(** A value that a panicking operation may fail to produce. *)
Definition must {A} (x : option A) : Go A :=
  match x with Some a => ret a | None => panic end.

(** [c.httpClient.Do(request)]: the request goes out and the server's next
    reply comes back. *)
Definition Do (request : Request) : Go Reply :=
  fun m => Returns (remote m (length (wire m))) (sent request m).

(** Ghost: one more entry into [getCidAndCsrf]. *)
Definition count_bootstrap : Go unit := fun m => Returns tt (entered m).

Definition set_id (v : string) (c : HTTPClient) : HTTPClient :=
  {| LoggerLevel := LoggerLevel c; LoggerPrefix := LoggerPrefix c;
     initDone := initDone c; endpoint := endpoint c; apikey := apikey c;
     username := username c; password := password c;
     id := v; csrf := csrf c; conf := conf c |}.

Definition set_csrf (v : string) (c : HTTPClient) : HTTPClient :=
  {| LoggerLevel := LoggerLevel c; LoggerPrefix := LoggerPrefix c;
     initDone := initDone c; endpoint := endpoint c; apikey := apikey c;
     username := username c; password := password c;
     id := id c; csrf := v; conf := conf c |}.

Definition set_initDone (v : bool) (c : HTTPClient) : HTTPClient :=
  {| LoggerLevel := LoggerLevel c; LoggerPrefix := LoggerPrefix c;
     initDone := v; endpoint := endpoint c; apikey := apikey c;
     username := username c; password := password c;
     id := id c; csrf := csrf c; conf := conf c |}.

(** [request.Header.Set(key, value)] *)
Definition Request_Header_Set (request : Request) (key value : string) : Request :=
  {| Method := Method request; URL := URL request; ReqBody := ReqBody request;
     ReqHeader := Header.Set_ (ReqHeader request) key value;
     BasicAuth := BasicAuth request |}.

(** [request.SetBasicAuth(username, password)] *)
Definition Request_SetBasicAuth (request : Request) (u p : string) : Request :=
  {| Method := Method request; URL := URL request; ReqBody := ReqBody request;
     ReqHeader := ReqHeader request; BasicAuth := Some (u, p) |}.

(** The four methods the verbs of the client pass to [http.NewRequest]. *)
Inductive Verb : Type := GET | POST | PUT | DELETE.

Definition Verb_name (v : Verb) : string :=
  match v with
  | GET => "GET" | POST => "POST" | PUT => "PUT" | DELETE => "DELETE"
  end.

(** ** The client *)

Section Client.

Context `{GoRuntime}.

(** [http.NewRequest(method, url, body)] for one of the four methods: it
    fails exactly when the URL does not parse. *)
Definition http_NewRequest (method : Verb) (url : string) (body : option string)
  : option Request * error :=
  match url_Parse url with
  | Some e => (None, Some e)
  | None =>
      (Some {| Method := Verb_name method; URL := url; ReqBody := body;
               ReqHeader := ∅; BasicAuth := None |}, None)
  end.

(** [fmt.Errorf(format)] without operands *)
Definition fmt_Errorf (format : string) : error := Some (fmt_Sprintf format).

(** [ResponseToBArray] (lines 219-226): the body is read to its end and
    closed; read again, a closed body gives no bytes (and a logged
    error).  The response comes back with its body in the new state. *)
Definition ResponseToBArray (response : Response) : string * Response :=
  if drained (RespBody response) then ("", response)
  else (payload (RespBody response),
        {| Status := Status response; StatusCode := StatusCode response;
           RespHeader := RespHeader response; Cookies := Cookies response;
           RespBody := {| payload := payload (RespBody response);
                          drained := true |} |}).

(** [formatURL] (lines 361-371) *)
Definition formatURL (c : HTTPClient) (endURL : string) : string :=
  let url := endpoint c in
  let url := if negb (GoString.HasSuffix url "/") then url +:+ "/" else url in
  let url := url +:+ GoString.TrimLeft (URLPrefix (conf c)) "/" in
  let url := if negb (GoString.HasSuffix url "/") then url +:+ "/" else url in
  url +:+ GoString.TrimLeft endURL "/".

(** Credential attachment, the head of [handleRequest] (lines 296-307).
    [None] is the run-time panic of [c.id[:5]]. *)
Definition attachCredentials (c : HTTPClient) (request : Request) : option Request :=
  let request :=
    if GoString.nonempty (HeaderAPIKeyName (conf c)) && GoString.nonempty (apikey c)
    then Request_Header_Set request (HeaderAPIKeyName (conf c)) (apikey c)
    else request in
  let request :=
    if GoString.nonempty (HeaderClientKeyName (conf c)) && GoString.nonempty (id c)
    then Request_Header_Set request (HeaderClientKeyName (conf c)) (id c)
    else request in
  let request :=
    if GoString.nonempty (username c) || GoString.nonempty (password c)
    then Request_SetBasicAuth request (username c) (password c)
    else request in
  if GoString.nonempty (csrf c) then
    match GoString.slice_to (id c) 5 with
    | Some prefix =>
        Some (Request_Header_Set request ("X-CSRF-Token-" +:+ prefix) (csrf c))
    | None => None
    end
  else Some request.

(** "Detect client ID change" (lines 318-321) *)
Definition detectClientID (c : HTTPClient) (response : Response) : HTTPClient :=
  let cid := Header.Get (RespHeader response) (HeaderClientKeyName (conf c)) in
  if GoString.nonempty cid && negb (String.eqb (id c) cid)
  then set_id cid c else c.

(** "Detect CSR token change" (lines 324-331): the loop over the cookies
    of the response, left at the first match.  [None] is the run-time
    panic of [c.id[:5]]. *)
Fixpoint scanCookies (c : HTTPClient) (cookies : list Cookie) : option HTTPClient :=
  match cookies with
  | [] => Some c
  | item :: rest =>
      if GoString.nonempty (id c) then
        match GoString.slice_to (id c) 5 with
        | Some prefix =>
            if String.eqb (Name item) ("CSRF-Token-" +:+ prefix)
            then Some (set_csrf (Value item) c)
            else scanCookies c rest
        | None => None
        end
      else scanCookies c rest
  end.

(** Credential extraction: the two steps above in sequence. *)
Definition extractCredentials (c : HTTPClient) (response : Response)
  : option HTTPClient :=
  scanCookies (detectClientID c response) (Cookies response).

(** [handleRequest] (lines 295-358) and [getCidAndCsrf] (lines 374-393).
    The two call each other in the source; [fuel] bounds the depth of
    that recursion. *)
Fixpoint handleRequest (fuel : nat) (request : Request)
  : Go (option Response * error) :=
  match fuel with
  | O => exhausted
  | S fuel =>
      c <- this ;;
      request <- must (attachCredentials c request) ;;
      reply <- Do request ;;
      match reply with
      | TransportError e => ret (None, Some e)
      | Answer response =>
          assign (fun c => detectClientID c response) ;;
          c <- this ;;
          c' <- must (scanCookies c (Cookies response)) ;;
          assign (fun _ => c') ;;
          if StatusCode response =? 404 then
            ret (None, errors_New "Invalid endpoint or API call")
          else if StatusCode response =? 401 then
            ret (None, errors_New "Invalid username or password")
          else if StatusCode response =? 403 then
            c <- this ;;
            if String.eqb (apikey c) "" then
              _ <- getCidAndCsrf fuel ;;
              ret (None, errors_New "Invalid CSRF token")
            else ret (None, errors_New "Invalid API key")
          else if negb (StatusCode response =? 200) then
            let '(bytes, response) := ResponseToBArray response in
            let data := json_Unmarshal bytes in
            match data !! "error" with
            | Some (JString err) => ret (None, fmt_Errorf err)
            | Some _ => panic
            | None =>
                let '(bytes, response) := ResponseToBArray response in
                let body := strings_TrimSpace bytes in
                if GoString.nonempty body then ret (None, fmt_Errorf body)
                else ret (None, errors_New
                            ("Unknown HTTP status returned: " +:+ Status response))
            end
          else ret (Some response, None)
      end
  end
with getCidAndCsrf (fuel : nat) : Go error :=
  match fuel with
  | O => exhausted
  | S fuel =>
      count_bootstrap ;;
      c <- this ;;
      if GoString.nonempty (apikey c) then ret None
      else
        match http_NewRequest GET (endpoint c) None with
        | (None, err) => ret err
        | (Some request, _) =>
            r <- handleRequest fuel request ;;
            match snd r with
            | Some e => ret (Some e)
            | None =>
                c <- this ;;
                if String.eqb (id c) "" then
                  ret (errors_New "Failed to get device ID")
                else if negb (CsrfDisable (conf c)) && String.eqb (csrf c) "" then
                  ret (errors_New "Failed to get CSRF token")
                else ret None
            end
        end
  end.

(** [_HTTPRequest] (lines 262-293).  [data] is the caller's [*[]byte]:
    [None] for a nil pointer, otherwise what the buffer holds; the third
    component of the result is the buffer after the call. *)
Definition _HTTPRequest (fuel : nat) (method : Verb) (url : string)
    (body : option string) (data : option string)
  : Go (option Response * error * option string) :=
  c <- this ;;
  (if negb (initDone c) then
     err <- getCidAndCsrf fuel ;;
     match err with
     | None => assign (set_initDone true)
     | Some _ => ret tt
     end
   else ret tt) ;;
  c <- this ;;
  match http_NewRequest method (formatURL c url) body with
  | (None, err) => ret (None, err, data)
  | (Some request, _) =>
      r <- handleRequest fuel request ;;
      match r with
      | (res, Some e) => ret (res, Some e, data)
      | (None, None) => panic
      | (Some res, None) =>
          if negb (StatusCode res =? 200) then
            ret (Some res, errors_New (Status res), data)
          else
            match data with
            | Some _ =>
                let '(bytes, res) := ResponseToBArray res in
                ret (Some res, None, Some bytes)
            | None => ret (Some res, None, None)
            end
      end
  end.

(** [HTTPGet] (lines 175-178) *)
Definition HTTPGet (fuel : nat) (url : string) (data : option string)
  : Go (error * option string) :=
  r <- _HTTPRequest fuel GET url None data ;;
  ret (snd (fst r), snd r).

(** [HTTPGetWithRes] (lines 181-183) *)
Definition HTTPGetWithRes (fuel : nat) (url : string) (data : option string)
  : Go (option Response * error * option string) :=
  _HTTPRequest fuel GET url None data.

(** [HTTPNewClient] (lines 59-98), run against the server [server]: the
    outcome holds the error returned and the machine with the new client
    in it. *)
Definition HTTPNewClient (fuel : nat) (baseURL : string) (cfg : HTTPClientConfig)
    (server : nat -> Reply) : Outcome error :=
  let client :=
    {| LoggerLevel := LogLevel cfg; LoggerPrefix := LogPrefix cfg;
       initDone := false; endpoint := baseURL; apikey := Apikey cfg;
       username := ""; password := ""; id := ""; csrf := ""; conf := cfg |} in
  (err <- getCidAndCsrf fuel ;;
   match err with
   | Some e => ret (Some e)
   | None => assign (set_initDone true) ;; ret None
   end)
    {| self := client; remote := server; wire := []; bootstraps := 0 |}.

End Client.

(** ** A run time to execute the client on

    The closed examples below run the client on this instance of
    [GoRuntime].  Each function agrees with Go's on the inputs the examples
    feed it; what it does not cover is said at each. *)

Module PlainRuntime.

(** [url.Parse] rejects a URL holding an ASCII control byte; the other
    ways a URL can fail to parse are not covered. *)
Definition is_ctl (b : ascii) : bool :=
  let n := Ascii.nat_of_ascii b in ((n <? 32) || (n =? 127))%nat.

Definition Parse (url : string) : error :=
  if Header.all_bytes (fun b => negb (is_ctl b)) url then None
  else Some "net/url: invalid control character in URL".

(** [fmt.Sprintf(format)] with no operand to print: text is copied, a
    doubled marker prints one, a verb finds its operand missing (flags,
    width and precision between marker and verb are not covered). *)
Fixpoint Sprintf (s : string) : string :=
  match s with
  | EmptyString => ""
  | String b rest =>
      if Ascii.eqb b "%"%char then
        match rest with
        | EmptyString => "%!(NOVERB)"
        | String v rest' =>
            if Ascii.eqb v "%"%char then String "%"%char (Sprintf rest')
            else "%!" +:+ String v ("(MISSING)" +:+ Sprintf rest')
        end
      else String b (Sprintf rest)
  end.

(** [strings.TrimSpace] for ASCII white space (tab, line feed, vertical
    tab, form feed, carriage return, space); Unicode spaces outside ASCII
    are not covered. *)
Definition is_space (b : ascii) : bool :=
  let n := Ascii.nat_of_ascii b in (((9 <=? n) && (n <=? 13)) || (n =? 32))%nat.

Fixpoint trim_left (s : string) : string :=
  match s with
  | EmptyString => ""
  | String b rest => if is_space b then trim_left rest else s
  end.

Fixpoint trim_right (s : string) : string :=
  match s with
  | EmptyString => ""
  | String b rest =>
      match trim_right rest with
      | EmptyString => if is_space b then "" else String b ""
      | kept => String b kept
      end
  end.

Definition TrimSpace (s : string) : string := trim_right (trim_left s).

(** The double quote. *)
Definition quote : ascii := Ascii.ascii_of_nat 34.

(** [json.Unmarshal] into a map, for flat objects: members whose values
    are strings without escapes, unsigned integers, [true], [false] or
    [null].  Any other input is taken as not decodable, which leaves the
    map empty, as Go leaves it for an input that is not JSON. *)
Definition is_json_ws (b : ascii) : bool :=
  let n := Ascii.nat_of_ascii b in
  ((n =? 32) || (n =? 9) || (n =? 10) || (n =? 13))%nat.

Fixpoint skip_ws (s : string) : string :=
  match s with
  | EmptyString => ""
  | String b rest => if is_json_ws b then skip_ws rest else s
  end.

(** After an opening quote: the bytes up to the closing quote, and what
    follows it. *)
Fixpoint read_string (s : string) : option (string * string) :=
  match s with
  | EmptyString => None
  | String b rest =>
      if Ascii.eqb b quote then Some ("", rest)
      else if Ascii.eqb b "\"%char || is_ctl b then None
      else match read_string rest with
           | Some (v, tail) => Some (String b v, tail)
           | None => None
           end
  end.

Fixpoint read_digits (s : string) : string * string :=
  match s with
  | EmptyString => ("", "")
  | String b rest =>
      if Header.is_digit b
      then let '(d, tail) := read_digits rest in (String b d, tail)
      else ("", s)
  end.

Definition read_literal (word : string) (v : JSONValue) (s : string)
  : option (JSONValue * string) :=
  if String.prefix word s
  then Some (v, String.substring (String.length word)
                  (String.length s - String.length word) s)
  else None.

Definition read_value (s : string) : option (JSONValue * string) :=
  match s with
  | EmptyString => None
  | String b rest =>
      if Ascii.eqb b quote then
        match read_string rest with
        | Some (v, tail) => Some (JString v, tail)
        | None => None
        end
      else if Header.is_digit b then
        let '(d, tail) := read_digits s in
        if Ascii.eqb b "0"%char && negb (String.eqb d "0") then None
        else Some (JNumber d, tail)
      else if Ascii.eqb b "t"%char then read_literal "true" (JBool true) s
      else if Ascii.eqb b "f"%char then read_literal "false" (JBool false) s
      else if Ascii.eqb b "n"%char then read_literal "null" JNull s
      else None
  end.

(** The members of an object, from the first key on; a key given twice
    keeps its last value. *)
Fixpoint read_members (fuel : nat) (s : string) (acc : gmap string JSONValue)
  : option (gmap string JSONValue) :=
  match fuel with
  | O => None
  | S fuel =>
      match skip_ws s with
      | String b rest =>
          if negb (Ascii.eqb b quote) then None else
          match read_string rest with
          | None => None
          | Some (key, tail) =>
              match skip_ws tail with
              | String colon tail =>
                  if negb (Ascii.eqb colon ":"%char) then None else
                  match read_value (skip_ws tail) with
                  | None => None
                  | Some (v, tail) =>
                      match skip_ws tail with
                      | String sep tail =>
                          if Ascii.eqb sep ","%char
                          then read_members fuel tail (<[key := v]> acc)
                          else if Ascii.eqb sep "}"%char
                                  && String.eqb (skip_ws tail) ""
                          then Some (<[key := v]> acc)
                          else None
                      | EmptyString => None
                      end
                  end
              | EmptyString => None
              end
          end
      | EmptyString => None
      end
  end.

Definition Unmarshal (bytes : string) : gmap string JSONValue :=
  match skip_ws bytes with
  | String b rest =>
      if negb (Ascii.eqb b "{"%char) then ∅ else
      match skip_ws rest with
      | String b' rest' =>
          if Ascii.eqb b' "}"%char then ∅
          else default ∅ (read_members (String.length bytes) rest ∅)
      | EmptyString => ∅
      end
  | EmptyString => ∅
  end.

Lemma Sprintf_plain (s : string) :
  GoString.percent_free s = true -> Sprintf s = s.
Proof.
  induction s as [|b rest IH]; simpl; [reflexivity|].
  destruct (Ascii.eqb b "%"%char); simpl; [discriminate|].
  intros Hrest. rewrite (IH Hrest). reflexivity.
Qed.

Lemma TrimSpace_empty : TrimSpace "" = "".
Proof. reflexivity. Qed.

#[global] Instance runtime : GoRuntime := {|
  url_Parse := Parse;
  json_Unmarshal := Unmarshal;
  fmt_Sprintf := Sprintf;
  strings_TrimSpace := TrimSpace;
  fmt_Sprintf_plain := Sprintf_plain;
  strings_TrimSpace_empty := TrimSpace_empty
|}.

End PlainRuntime.

(** ** The machines of the examples *)

Module Scenario.

Definition cfg (key : string) : HTTPClientConfig :=
  {| URLPrefix := "rest"; HeaderAPIKeyName := "X-API-Key"; Apikey := key;
     HeaderClientKeyName := "ClientID"; CsrfDisable := false;
     LogLevel := 1; LogPrefix := "" |}.

(** A client as [HTTPNewClient] first builds it, before any traffic. *)
Definition client (key ident token : string) : HTTPClient :=
  {| LoggerLevel := 1; LoggerPrefix := ""; initDone := false;
     endpoint := "http://h"; apikey := key; username := ""; password := "";
     id := ident; csrf := token; conf := cfg key |}.

(** Nothing sent yet. *)
Definition machine (c : HTTPClient) (server : nat -> Reply) : Machine :=
  {| self := c; remote := server; wire := []; bootstraps := 0 |}.

(** A response as the transport hands it over, its body unread.  The
    header keys are canonical, as [net/http] stores them. *)
Definition response (code : Z) (status : string)
    (header : gmap string (list string)) (cookies : list Cookie)
    (body : string) : Response :=
  {| Status := status; StatusCode := code; RespHeader := header;
     Cookies := cookies;
     RespBody := {| payload := body; drained := false |} |}.

(** Header [ClientID: abc123] and cookie [CSRF-Token-abc12=tok1]. *)
Definition login (code : Z) (status : string) : Response :=
  response code status {[ "Clientid" := ["abc123"] ]}
    [ {| Name := "CSRF-Token-abc12"; Value := "tok1" |} ] "[]".

(** A client ID of three bytes, and a cookie. *)
Definition short_id : Response :=
  response 200 "200 OK" {[ "Clientid" := ["abc"] ]}
    [ {| Name := "lang"; Value := "en" |} ] "".

(** The same ID, and no cookie. *)
Definition short_id_bare : Response :=
  response 200 "200 OK" {[ "Clientid" := ["abc"] ]} [] "".

Definition forbidden : Response := response 403 "403 Forbidden" ∅ [] "".

Definition failure (body : string) : Response :=
  response 500 "500 Internal Server Error" ∅ [] body.

(** The JSON object with the single member [error], its value given as
    JSON text. *)
Definition error_object (value : string) : string :=
  let q := String PlainRuntime.quote "" in
  "{" +:+ q +:+ "error" +:+ q +:+ ":" +:+ value +:+ "}".

(** The JSON text of a string without escapes. *)
Definition quoted (s : string) : string :=
  let q := String PlainRuntime.quote "" in q +:+ s +:+ q.

(** The server that answers every request with the same reply. *)
Definition always (r : Response) : nat -> Reply := fun _ => Answer r.

(** The server that answers [r] to its first [n] requests and [r'] from
    then on. *)
Definition first (n : nat) (r r' : Response) : nat -> Reply :=
  fun k => if (k <? n)%nat then Answer r else Answer r'.

(** The server that answers with the responses of [rs] in turn, and with
    [r] once they are used up. *)
Definition script (rs : list Response) (r : Response) : nat -> Reply :=
  fun k => Answer (nth k rs r).

(** The machine of a client facing a server that only ever answers 403,
    after any traffic. *)
Definition locked_out (w : list Request) (b : nat) : Machine :=
  {| self := client "" "" ""; remote := always forbidden; wire := w;
     bootstraps := b |}.

(** A GET without credentials, as [http.NewRequest] builds it. *)
Definition get (url : string) : Request :=
  {| Method := "GET"; URL := url; ReqBody := None; ReqHeader := ∅;
     BasicAuth := None |}.

End Scenario.

(** ** The rest of the client: the other verbs, the log level, the logger *)

(** Case mapping of [strings]: Unicode-aware in Go, and on ASCII text the
    mapping of the letters byte by byte, which is the law taken here. *)
Module GoCaseOps.

Definition is_ascii (b : ascii) : bool := (Ascii.nat_of_ascii b <? 128)%nat.

Fixpoint map_bytes (f : ascii -> ascii) (s : string) : string :=
  match s with
  | EmptyString => EmptyString
  | String b rest => String (f b) (map_bytes f rest)
  end.

(** The line feed. *)
Definition newline : string := String (Ascii.ascii_of_nat 10) "".

End GoCaseOps.

Class GoCase : Type := {
  (** [strings.ToLower] *)
  strings_ToLower : string -> string;
  (** [strings.ToUpper] *)
  strings_ToUpper : string -> string;
  strings_ToLower_ascii :
    forall s, Header.all_bytes GoCaseOps.is_ascii s = true ->
              strings_ToLower s = GoCaseOps.map_bytes Header.to_lower s;
  strings_ToUpper_ascii :
    forall s, Header.all_bytes GoCaseOps.is_ascii s = true ->
              strings_ToUpper s = GoCaseOps.map_bytes Header.to_upper s
}.

(** "Logger levels constants" (lines 46-52) *)
Definition HTTPLogLevelPanic : Z := 0.
Definition HTTPLogLevelError : Z := 1.
Definition HTTPLogLevelWarning : Z := 2.
Definition HTTPLogLevelInfo : Z := 3.
Definition HTTPLogLevelDebug : Z := 4.

Definition set_LoggerLevel (v : Z) (c : HTTPClient) : HTTPClient :=
  {| LoggerLevel := v; LoggerPrefix := LoggerPrefix c;
     initDone := initDone c; endpoint := endpoint c; apikey := apikey c;
     username := username c; password := password c;
     id := id c; csrf := csrf c; conf := conf c |}.

(** [LogLevelToString] (lines 106-120) *)
Definition LogLevelToString (lvl : Z) : string :=
  if lvl =? HTTPLogLevelPanic then "panic"
  else if lvl =? HTTPLogLevelError then "error"
  else if lvl =? HTTPLogLevelWarning then "warning"
  else if lvl =? HTTPLogLevelInfo then "info"
  else if lvl =? HTTPLogLevelDebug then "debug"
  else "Unknown".

(** [GetLogLevel] (lines 101-103) *)
Definition GetLogLevel (c : HTTPClient) : string :=
  LogLevelToString (LoggerLevel c).

(** [GetClientID] (lines 142-144) *)
Definition GetClientID (c : HTTPClient) : string := id c.

Section Logger.

Context `{GoRuntime} `{GoCase}.

(** [SetLogLevel] (lines 123-139): the client after the call, and the error
    returned. *)
Definition SetLogLevel (c : HTTPClient) (lvl : string) : HTTPClient * error :=
  let name := strings_ToLower lvl in
  if String.eqb name "panic" then (set_LoggerLevel HTTPLogLevelPanic c, None)
  else if String.eqb name "error" then (set_LoggerLevel HTTPLogLevelError c, None)
  else if String.eqb name "warn" || String.eqb name "warning"
  then (set_LoggerLevel HTTPLogLevelWarning c, None)
  else if String.eqb name "info" then (set_LoggerLevel HTTPLogLevelInfo c, None)
  else if String.eqb name "debug" then (set_LoggerLevel HTTPLogLevelDebug c, None)
  else (c, fmt_Errorf "Unknown level").

(** The operands of a formatted print, and [fmt.Sprintf(format, args...)]
    on them. *)
Variable Operand : Type.
Variable fmt_Sprintf_with : string -> list Operand -> string.

(** [log] (lines 396-402): what is written to the log sink, [None] when
    the line is filtered out. *)
Definition log (c : HTTPClient) (level : Z) (format : string)
    (args : list Operand) : option string :=
  if level >? LoggerLevel c then None
  else
    let sLvl := strings_ToUpper (LogLevelToString level) in
    Some (fmt_Sprintf_with
            (sLvl +:+ ": " +:+ LoggerPrefix c +:+ format +:+ GoCaseOps.newline)
            args).

End Logger.

Section Verbs.

Context `{GoRuntime}.

(** [HTTPPost] (lines 186-189) *)
Definition HTTPPost (fuel : nat) (url body : string) : Go error :=
  r <- _HTTPRequest fuel POST url (Some body) None ;;
  ret (snd (fst r)).

(** [HTTPPostWithRes] (lines 192-194) *)
Definition HTTPPostWithRes (fuel : nat) (url body : string)
  : Go (option Response * error) :=
  r <- _HTTPRequest fuel POST url (Some body) None ;;
  ret (fst r).

(** [HTTPPut] (lines 197-200) *)
Definition HTTPPut (fuel : nat) (url body : string) : Go error :=
  r <- _HTTPRequest fuel PUT url (Some body) None ;;
  ret (snd (fst r)).

(** [HTTPPutWithRes] (lines 203-205) *)
Definition HTTPPutWithRes (fuel : nat) (url body : string)
  : Go (option Response * error) :=
  r <- _HTTPRequest fuel PUT url (Some body) None ;;
  ret (fst r).

(** [HTTPDelete] (lines 208-211) *)
Definition HTTPDelete (fuel : nat) (url : string) : Go error :=
  r <- _HTTPRequest fuel DELETE url None None ;;
  ret (snd (fst r)).

(** [HTTPDeleteWithRes] (lines 214-216) *)
Definition HTTPDeleteWithRes (fuel : nat) (url : string)
  : Go (option Response * error) :=
  r <- _HTTPRequest fuel DELETE url None None ;;
  ret (fst r).

End Verbs.

(** The values behind the [interface{}] arguments of the high-level verbs,
    with [json.Marshal] on them and [json.Unmarshal(bytes, out)], which
    gives the value [out] points to after the call and the error. *)
Class GoJSON : Type := {
  GoValue : Type;
  json_Marshal : GoValue -> string * error;
  json_Unmarshal_into : string -> GoValue -> GoValue * error
}.

Section HighLevelVerbs.

Context `{GoRuntime} `{GoJSON}.

(** [_Request] (lines 233-259).  [input] and [out] are [None] for a nil
    interface; the result is the error and what [out] points to after the
    call. *)
Definition _Request (fuel : nat) (method : Verb) (url : string)
    (input out : option GoValue) : Go (error * option GoValue) :=
  let finish (r : option Response * error * option string) :=
    match r with
    | (_, Some e, _) => ret (Some e, out)
    | (None, None, _) => panic
    | (Some res, None, _) =>
        if negb (StatusCode res =? 200) then
          ret (Some ("HTTP status " +:+ Status res), out)
        else
          match out with
          | None => ret (None, None)
          | Some target =>
              let '(bytes, _) := ResponseToBArray res in
              let '(target', err) := json_Unmarshal_into bytes target in
              ret (err, Some target')
          end
    end in
  match input with
  | Some v =>
      match json_Marshal v with
      | (_, Some e) => ret (Some e, out)
      | (body, None) =>
          r <- _HTTPRequest fuel method url (Some body) None ;;
          finish r
      end
  | None =>
      r <- _HTTPRequest fuel method url None None ;;
      finish r
  end.

(** [Get], [Post], [Put], [Delete] (lines 151-168) *)
Definition Get (fuel : nat) (url : string) (out : option GoValue)
  : Go (error * option GoValue) :=
  _Request fuel GET url None out.

Definition Post (fuel : nat) (url : string) (input out : option GoValue)
  : Go (error * option GoValue) :=
  _Request fuel POST url input out.

Definition Put (fuel : nat) (url : string) (input out : option GoValue)
  : Go (error * option GoValue) :=
  _Request fuel PUT url input out.


End HighLevelVerbs.

(** ** Signals over the web socket: [Signal] of package eows *)

Module eows.

(** The signals of [syscall] the switch of [Signal] names. *)
Inductive os_Signal : Type :=
| SIGQUIT | SIGTERM | SIGINT | SIGABRT | SIGCONT | SIGHUP | SIGKILL
| SIGSTOP | SIGTSTP | SIGUSR1 | SIGUSR2.

(** [os.Process], as far as [Signal] reads it. *)
Record Process : Type := mkProcess { Pid : Z }.

(** [ExecOverWS], as far as [Signal] reads it: the process of the running
    command, [None] for a nil pointer. *)
Record ExecOverWS : Type := mkExecOverWS { proc : option Process }.

(** The switch of [Signal] (lines 15-40): the signal a name stands for. *)
Definition signal_of (signal : string) : option os_Signal :=
  if String.eqb signal "quit" || String.eqb signal "SIGQUIT" then Some SIGQUIT
  else if String.eqb signal "terminated" || String.eqb signal "SIGTERM"
  then Some SIGTERM
  else if String.eqb signal "interrupt" || String.eqb signal "SIGINT"
  then Some SIGINT
  else if String.eqb signal "aborted" || String.eqb signal "SIGABRT"
  then Some SIGABRT
  else if String.eqb signal "continued" || String.eqb signal "SIGCONT"
  then Some SIGCONT
  else if String.eqb signal "hangup" || String.eqb signal "SIGHUP"
  then Some SIGHUP
  else if String.eqb signal "killed" || String.eqb signal "SIGKILL"
  then Some SIGKILL
  else if String.eqb signal "stopped (signal)" || String.eqb signal "SIGSTOP"
  then Some SIGSTOP
  else if String.eqb signal "stopped" || String.eqb signal "SIGTSTP"
  then Some SIGTSTP
  else if String.eqb signal "user defined signal 1"
          || String.eqb signal "SIGUSR1"
  then Some SIGUSR1
  else if String.eqb signal "user defined signal 2"
          || String.eqb signal "SIGUSR2"
  then Some SIGUSR2
  else None.

(** The case labels of the switch: for each signal the name that describes
    it and the name of its constant. *)
Definition names : list (string * string * os_Signal) :=
  [ ("quit", "SIGQUIT", SIGQUIT); ("terminated", "SIGTERM", SIGTERM);
    ("interrupt", "SIGINT", SIGINT); ("aborted", "SIGABRT", SIGABRT);
    ("continued", "SIGCONT", SIGCONT); ("hangup", "SIGHUP", SIGHUP);
    ("killed", "SIGKILL", SIGKILL); ("stopped (signal)", "SIGSTOP", SIGSTOP);
    ("stopped", "SIGTSTP", SIGTSTP);
    ("user defined signal 1", "SIGUSR1", SIGUSR1);
    ("user defined signal 2", "SIGUSR2", SIGUSR2) ].

Section Exec.

Context `{GoRuntime}.

(** What the operating system answers to [proc.Signal(sig)], given the
    signals delivered before. *)
Variable Process_Signal : list (Z * os_Signal) -> Process -> os_Signal -> error.

(** [Signal] (lines 13-48): the error returned, and the signals delivered
    so far (process ID and signal, oldest first). *)
Definition Signal (e : ExecOverWS) (signal : string)
    (delivered : list (Z * os_Signal)) : error * list (Z * os_Signal) :=
  match signal_of signal with
  | None => (fmt_Errorf "Unsupported signal", delivered)
  | Some sig =>
      match proc e with
      | None => (fmt_Errorf "Cannot retrieve process", delivered)
      | Some p =>
          (Process_Signal delivered p sig, (delivered ++ [(Pid p, sig)])%list)
      end
  end.

End Exec.

End eows.

(** Case mapping for the closed examples: the ASCII letters, every other
    byte left as it is. *)
Module PlainCase.

Definition ToLower (s : string) : string := GoCaseOps.map_bytes Header.to_lower s.
Definition ToUpper (s : string) : string := GoCaseOps.map_bytes Header.to_upper s.

#[global] Instance case : GoCase := {|
  strings_ToLower := ToLower;
  strings_ToUpper := ToUpper;
  strings_ToLower_ascii := fun s _ => eq_refl;
  strings_ToUpper_ascii := fun s _ => eq_refl
|}.

End PlainCase.

(** Values and a JSON codec for the closed examples: booleans, which
    encode as [true] and [false], and a channel, which [json.Marshal]
    refuses.  Decoding covers the two literals without surrounding white
    space; the text of its error is not Go's. *)
Module PlainJSON.

Inductive Value : Type :=
| VBool (b : bool)
| VChan.

Definition Marshal (v : Value) : string * error :=
  match v with
  | VBool true => ("true", None)
  | VBool false => ("false", None)
  | VChan => ("", Some "json: unsupported type: chan int")
  end.

Definition Unmarshal_into (bytes : string) (target : Value) : Value * error :=
  if String.eqb bytes "true" then (VBool true, None)
  else if String.eqb bytes "false" then (VBool false, None)
  else (target, Some "json: cannot decode into bool").

#[global] Instance codec : GoJSON := {|
  GoValue := Value;
  json_Marshal := Marshal;
  json_Unmarshal_into := Unmarshal_into
|}.

(** A 200 whose body is the JSON [true]. *)
Definition truth : Response :=
  {| Status := "200 OK"; StatusCode := 200; RespHeader := ∅; Cookies := [];
     RespBody := {| payload := "true"; drained := false |} |}.

End PlainJSON.

(** ** Vocabulary of the properties *)

(** [P] holds of the machine a call leaves, however it ends. *)
Definition post {A} (P : Machine -> Prop) (o : Outcome A) : Prop :=
  match o with
  | Returns _ m' => P m'
  | Panics m' => P m'
  | OutOfFuel => True
  end.

Record extends (m m' : Machine) : Prop := {
  ext_remote : remote m' = remote m;
  ext_wire : wire m `prefix_of` wire m';
  ext_bootstraps : (bootstraps m <= bootstraps m')%nat;
  ext_apikey : apikey (self m') = apikey (self m);
  ext_conf : conf (self m') = conf (self m);
  ext_endpoint : endpoint (self m') = endpoint (self m);
  ext_initDone : initDone (self m') = initDone (self m)
}.

(** [P] holds of the machine a call leaves, and the call does end. *)
Definition ends {A} (P : Machine -> Prop) (o : Outcome A) : Prop :=
  match o with
  | Returns _ m' => P m'
  | Panics m' => P m'
  | OutOfFuel => False
  end.

(** The session state of a client that never negotiated. *)
Definition no_session (c : HTTPClient) : Prop := id c = "" /\ csrf c = "".




(** A run of [n] slashes, and whether a string begins with a slash. *)
Fixpoint slashes (n : nat) : string :=
  match n with
  | O => ""
  | S n => String "/"%char (slashes n)
  end.

Definition leads_with_slash (s : string) : bool :=
  match s with
  | EmptyString => false
  | String b _ => Ascii.eqb b "/"%char
  end.

(** One slash, or none. *)
Definition maybe_slash (b : bool) : string := if b then "/" else "".

(** Settle the four tests on a status that is none of 200, 401, 403, 404. *)
Ltac other_status Hcode :=
  cbn in Hcode;
  repeat match goal with
    | |- context [Z.eqb ?x ?y] =>
        destruct (Z.eqb_spec x y);
        [exfalso; apply Hcode; intuition congruence|]
    end;
  cbn [negb].

(** Run a call on a closed machine: name its outcome, discard the ways it
    does not end, and replace the result and the machine it leaves by their
    values. *)
Ltac run call H :=
  destruct call eqn:H;
  try (exfalso; vm_compute in H; discriminate);
  let H' := fresh in
  pose proof H as H'; vm_compute in H'; injection H'; intros; subst; clear H'.

(** * Properties *)

(** ** Go strings *)

Lemma nonempty_true (s : string) : GoString.nonempty s = true <-> s <> "".
Proof.
  unfold GoString.nonempty. rewrite negb_true_iff. apply String.eqb_neq.
Qed.

Lemma nonempty_false (s : string) : GoString.nonempty s = false <-> s = "".
Proof.
  unfold GoString.nonempty. rewrite negb_false_iff. apply String.eqb_eq.
Qed.

Lemma slice_to_some (s : string) (n : nat) :
  (n <= String.length s)%nat ->
  GoString.slice_to s n = Some (String.substring 0 n s).
Proof.
  intros Hlen. unfold GoString.slice_to.
  apply Nat.leb_le in Hlen. rewrite Hlen. reflexivity.
Qed.

Lemma slice_to_none (s : string) (n : nat) :
  (String.length s < n)%nat -> GoString.slice_to s n = None.
Proof.
  intros Hlen. unfold GoString.slice_to.
  apply Nat.leb_gt in Hlen. rewrite Hlen. reflexivity.
Qed.

(** ** URL joining *)

(** C8. For the endpoints "http://h" and "http://h/", the prefixes "rest",
    "/rest/" and "rest/" and the paths "foo" and "/foo", [formatURL] gives
    "http://h/rest/foo": one slash between each pair of segments,
    whatever slashes the inputs carry. *)
Theorem formatURL_slash_invariant (c : HTTPClient) (path : string) :
  In (endpoint c) ["http://h"; "http://h/"] ->
  In (URLPrefix (conf c)) ["rest"; "/rest/"; "rest/"] ->
  In path ["foo"; "/foo"] ->
  formatURL c path = "http://h/rest/foo".
Proof.
  unfold formatURL. intros He Hp Hf. simpl in He, Hp, Hf.
  destruct He as [<-|[<-|[]]];
    destruct Hp as [<-|[<-|[<-|[]]]];
    destruct Hf as [<-|[<-|[]]]; reflexivity.
Qed.

Lemma formatURL_slash_invariant_witness :
  formatURL (Scenario.client "" "" "") "/foo" = "http://h/rest/foo".
Proof.
  apply (formatURL_slash_invariant (Scenario.client "" "" "") "/foo");
    simpl; auto.
Defined.

(** ** Credential extraction *)


Lemma set_csrf_same (c : HTTPClient) : set_csrf (csrf c) c = c.
Proof. destruct c; reflexivity. Qed.

(** With no client ID the cookies are not looked at. *)
Lemma scanCookies_no_id (c : HTTPClient) (cookies : list Cookie) :
  id c = "" -> scanCookies c cookies = Some c.
Proof.
  intros Hid. induction cookies as [|item rest IH]; simpl; [reflexivity|].
  apply nonempty_false in Hid. rewrite Hid. exact IH.
Qed.

(** With an ID of five bytes or more the first cookie of the expected name
    gives the token. *)
Lemma scanCookies_long_id (c : HTTPClient) (cookies : list Cookie) :
  (5 <= String.length (id c))%nat ->
  scanCookies c cookies =
    Some match List.find
                 (fun item => String.eqb (Name item)
                    ("CSRF-Token-" +:+ String.substring 0 5 (id c))) cookies with
         | Some item => set_csrf (Value item) c
         | None => c
         end.
Proof.
  intros Hlen.
  assert (Hne : GoString.nonempty (id c) = true).
  { apply nonempty_true. intros E. rewrite E in Hlen. simpl in Hlen. lia. }
  induction cookies as [|item rest IH]; simpl; [reflexivity|].
  rewrite Hne, (slice_to_some _ _ Hlen).
  destruct (String.eqb (Name item) _); [reflexivity | exact IH].
Qed.

(** With a shorter ID any cookie at all makes the scan panic. *)
Lemma scanCookies_short_id (c : HTTPClient) (item : Cookie) (rest : list Cookie) :
  id c <> "" -> (String.length (id c) < 5)%nat ->
  scanCookies c (item :: rest) = None.
Proof.
  intros Hne Hlen. simpl.
  apply nonempty_true in Hne. rewrite Hne, (slice_to_none _ _ Hlen).
  reflexivity.
Qed.




(** Extraction touches the ID and the token only. *)
Lemma detectClientID_static (c : HTTPClient) (response : Response) :
  apikey (detectClientID c response) = apikey c
  /\ conf (detectClientID c response) = conf c
  /\ endpoint (detectClientID c response) = endpoint c
  /\ initDone (detectClientID c response) = initDone c
  /\ csrf (detectClientID c response) = csrf c.
Proof.
  unfold detectClientID. destruct (_ && _); repeat split; reflexivity.
Qed.

Lemma scanCookies_static (c c' : HTTPClient) (cookies : list Cookie) :
  scanCookies c cookies = Some c' ->
  apikey c' = apikey c /\ conf c' = conf c /\ endpoint c' = endpoint c
  /\ initDone c' = initDone c /\ id c' = id c.
Proof.
  induction cookies as [|item rest IH]; simpl.
  - intros [= <-]. repeat split; reflexivity.
  - destruct (GoString.nonempty (id c)); [|exact IH].
    destruct (GoString.slice_to (id c) 5); [|discriminate].
    destruct (String.eqb _ _); [|exact IH].
    intros [= <-]. repeat split; reflexivity.
Qed.

Lemma extractCredentials_static (c c' : HTTPClient) (response : Response) :
  extractCredentials c response = Some c' ->
  apikey c' = apikey c /\ conf c' = conf c /\ endpoint c' = endpoint c
  /\ initDone c' = initDone c.
Proof.
  unfold extractCredentials. intros Hscan.
  apply scanCookies_static in Hscan as (Ha & Hc & He & Hi & _).
  destruct (detectClientID_static c response) as (Ha' & Hc' & He' & Hi' & _).
  repeat split; congruence.
Qed.

(** ** One request *)

Section Pipeline.

Context `{GoRuntime}.

(** [handleRequest], once the request has its credentials and the server
    has answered: what is left is the extraction and the classification
    of the status. *)
Lemma handleRequest_answered (fuel : nat) (request request' : Request)
    (m : Machine) (response : Response) (c' : HTTPClient) :
  attachCredentials (self m) request = Some request' ->
  remote m (length (wire m)) = Answer response ->
  extractCredentials (self m) response = Some c' ->
  handleRequest (S fuel) request m =
    (if StatusCode response =? 404 then
       ret (None, errors_New "Invalid endpoint or API call")
     else if StatusCode response =? 401 then
       ret (None, errors_New "Invalid username or password")
     else if StatusCode response =? 403 then
       if String.eqb (apikey c') "" then
         _ <- getCidAndCsrf fuel ;;
         ret (None, errors_New "Invalid CSRF token")
       else ret (None, errors_New "Invalid API key")
     else if negb (StatusCode response =? 200) then
       match json_Unmarshal (fst (ResponseToBArray response)) !! "error" with
       | Some (JString err) => ret (None, fmt_Errorf err)
       | Some _ => panic
       | None =>
           let body :=
             strings_TrimSpace
               (fst (ResponseToBArray (snd (ResponseToBArray response)))) in
           if GoString.nonempty body then ret (None, fmt_Errorf body)
           else ret (None, errors_New
                       ("Unknown HTTP status returned: " +:+ Status response))
       end
     else ret (Some response, None))
      (with_self c' (sent request' m)).
Proof.
  intros Hattach Hreply Hextract. unfold extractCredentials in Hextract.
  cbn [handleRequest]. unfold bind at 1. unfold this at 1.
  unfold bind at 1. rewrite Hattach. cbn [must]. unfold ret at 1.
  unfold bind at 1. unfold Do at 1. rewrite Hreply.
  unfold bind at 1. unfold assign at 1.
  unfold bind at 1. unfold this at 1.
  unfold bind at 1. cbn [self with_self sent]. rewrite Hextract.
  cbn [must]. unfold ret at 1.
  unfold bind at 1. unfold assign at 1.
  replace (with_self _ (with_self _ (sent request' m)))
    with (with_self c' (sent request' m)) by reflexivity.
  destruct (StatusCode response =? 404); [reflexivity|].
  destruct (StatusCode response =? 401); [reflexivity|].
  destruct (StatusCode response =? 403).
  { unfold bind at 1. unfold this at 1. reflexivity. }
  destruct (negb (StatusCode response =? 200)); [|reflexivity].
  destruct (ResponseToBArray response) as [bytes response1] eqn:E1.
  cbn [fst snd].
  destruct (json_Unmarshal bytes !! "error") as [[]|]; try reflexivity.
  destruct (ResponseToBArray response1) as [bytes2 response2] eqn:E2.
  cbn [fst]. 
  replace (Status response2) with (Status response); [reflexivity|].
  unfold ResponseToBArray in E1, E2.
  destruct (drained (RespBody response)); inversion E1; subst; cbn in E2;
    [destruct (drained (RespBody response1))|]; inversion E2; reflexivity.
Qed.

(** A body read once gives nothing when read again. *)
Lemma ResponseToBArray_again (response : Response) :
  fst (ResponseToBArray (snd (ResponseToBArray response))) = "".
Proof.
  unfold ResponseToBArray.
  destruct (drained (RespBody response)) eqn:E; cbn [snd fst].
  - rewrite E. reflexivity.
  - reflexivity.
Qed.

Lemma ResponseToBArray_fresh (response : Response) :
  drained (RespBody response) = false ->
  fst (ResponseToBArray response) = payload (RespBody response).
Proof. intros E. unfold ResponseToBArray. rewrite E. reflexivity. Qed.

(** The chain of fall-backs for the other statuses, as the code runs it:
    the body is read for the JSON decoding, so the second read, meant for
    the raw text, comes back empty and the raw text is never used. *)
Lemma other_status_without_error_field (fuel : nat)
    (request request' : Request) (m : Machine) (response : Response)
    (c' : HTTPClient) :
  attachCredentials (self m) request = Some request' ->
  remote m (length (wire m)) = Answer response ->
  extractCredentials (self m) response = Some c' ->
  ~ In (StatusCode response) [200; 401; 403; 404] ->
  json_Unmarshal (fst (ResponseToBArray response)) !! "error" = None ->
  handleRequest (S fuel) request m =
    Returns (None, errors_New
               ("Unknown HTTP status returned: " +:+ Status response))
      (with_self c' (sent request' m)).
Proof.
  intros Hattach Hreply Hextract Hcode Hjson.
  rewrite (handleRequest_answered fuel _ _ _ _ _ Hattach Hreply Hextract).
  other_status Hcode. rewrite Hjson. cbv zeta.
  rewrite ResponseToBArray_again, strings_TrimSpace_empty. reflexivity.
Qed.

(** The error field of a JSON body, when it is a string, is the message
    (as a format: verbatim when it holds no verb marker). *)
Lemma other_status_with_error_field (fuel : nat)
    (request request' : Request) (m : Machine) (response : Response)
    (c' : HTTPClient) (msg : string) :
  attachCredentials (self m) request = Some request' ->
  remote m (length (wire m)) = Answer response ->
  extractCredentials (self m) response = Some c' ->
  ~ In (StatusCode response) [200; 401; 403; 404] ->
  json_Unmarshal (fst (ResponseToBArray response)) !! "error"
    = Some (JString msg) ->
  GoString.percent_free msg = true ->
  handleRequest (S fuel) request m =
    Returns (None, errors_New msg) (with_self c' (sent request' m)).
Proof.
  intros Hattach Hreply Hextract Hcode Hjson Hplain.
  rewrite (handleRequest_answered fuel _ _ _ _ _ Hattach Hreply Hextract).
  other_status Hcode. rewrite Hjson. unfold fmt_Errorf.
  rewrite (fmt_Sprintf_plain _ Hplain). reflexivity.
Qed.

(** An error field that is not a string stops the client: the type
    assertion [err.(string)] panics. *)
Lemma other_status_with_odd_error_field (fuel : nat)
    (request request' : Request) (m : Machine) (response : Response)
    (c' : HTTPClient) (v : JSONValue) :
  attachCredentials (self m) request = Some request' ->
  remote m (length (wire m)) = Answer response ->
  extractCredentials (self m) response = Some c' ->
  ~ In (StatusCode response) [200; 401; 403; 404] ->
  json_Unmarshal (fst (ResponseToBArray response)) !! "error" = Some v ->
  (forall s, v <> JString s) ->
  handleRequest (S fuel) request m = Panics (with_self c' (sent request' m)).
Proof.
  intros Hattach Hreply Hextract Hcode Hjson Hodd.
  rewrite (handleRequest_answered fuel _ _ _ _ _ Hattach Hreply Hextract).
  other_status Hcode. rewrite Hjson.
  destruct v; try reflexivity. exfalso. eapply Hodd; reflexivity.
Qed.

End Pipeline.

(** ** What no call undoes

    A call of [handleRequest] or [getCidAndCsrf] may send requests, count
    bootstraps and change the ID and the token; it leaves everything else
    as it was. *)

Lemma extends_refl (m : Machine) : extends m m.
Proof. split; try reflexivity. Qed.

Lemma extends_trans (m1 m2 m3 : Machine) :
  extends m1 m2 -> extends m2 m3 -> extends m1 m3.
Proof.
  intros [] []. split; try congruence.
  - etransitivity; eassumption.
  - lia.
Qed.

Lemma extends_sent (m : Machine) (request : Request) : extends m (sent request m).
Proof. split; try reflexivity. cbn. apply prefix_app_r. reflexivity. Qed.

Lemma extends_entered (m : Machine) : extends m (entered m).
Proof. split; try reflexivity. cbn. lia. Qed.

Lemma extends_extracted (m : Machine) (response : Response) (c' : HTTPClient) :
  extractCredentials (self m) response = Some c' -> extends m (with_self c' m).
Proof.
  intros Hx. apply extractCredentials_static in Hx as (? & ? & ? & ?).
  split; try reflexivity; assumption.
Qed.

Lemma extends_detected (m : Machine) (response : Response) :
  extends m (with_self (detectClientID (self m) response) m).
Proof.
  destruct (detectClientID_static (self m) response) as (? & ? & ? & ? & ?).
  split; try reflexivity; assumption.
Qed.

Lemma post_extends_trans {A} (m1 m2 : Machine) (o : Outcome A) :
  extends m1 m2 -> post (extends m2) o -> post (extends m1) o.
Proof.
  intros H12. destruct o; cbn; eauto using extends_trans.
Qed.

Section Frame.

Context `{GoRuntime}.

(** A request that got its credentials goes out, whatever follows. *)
Lemma handleRequest_dispatches_with (fuel : nat) (request request' : Request)
    (m : Machine) :
  (forall m1, post (extends m1) (getCidAndCsrf fuel m1)) ->
  attachCredentials (self m) request = Some request' ->
  post (extends (sent request' m)) (handleRequest (S fuel) request m).
Proof.
  intros IHg Hattach.
  destruct (remote m (length (wire m))) as [msg|response] eqn:Hreply.
  { cbn [handleRequest]. unfold bind, this. rewrite Hattach.
    cbn. rewrite Hreply. cbn. apply extends_refl. }
  destruct (extractCredentials (self m) response) as [c'|] eqn:Hextract.
  2:{ cbn [handleRequest]. unfold bind, this. rewrite Hattach.
      cbn. rewrite Hreply. unfold extractCredentials in Hextract.
      cbn. rewrite Hextract. cbn.
      apply (extends_detected (sent request' m)). }
  rewrite (handleRequest_answered fuel _ _ _ _ _ Hattach Hreply Hextract).
  assert (Hm1 : extends (sent request' m) (with_self c' (sent request' m))).
  { apply (extends_extracted (sent request' m) response). exact Hextract. }
  cbv zeta.
  repeat match goal with
    | |- context [if ?b then _ else _] => destruct b
    | |- context [match ?x with _ => _ end] => destruct x
    end; cbn; try exact Hm1.
  unfold bind.
  pose proof (IHg (with_self c' (sent request' m))) as Hboot.
  destruct (getCidAndCsrf fuel _); cbn in *; eauto using extends_trans.
Qed.

Lemma calls_extend (fuel : nat) :
  (forall request m, post (extends m) (handleRequest fuel request m))
  /\ (forall m, post (extends m) (getCidAndCsrf fuel m)).
Proof.
  induction fuel as [|fuel [IHh IHg]]; [split; intros; exact I|].
  split.
  - intros request m.
    destruct (attachCredentials (self m) request) as [request'|] eqn:Hattach.
    + eapply post_extends_trans; [apply (extends_sent m request')|].
      apply handleRequest_dispatches_with; assumption.
    + cbn [handleRequest]. unfold bind, this. rewrite Hattach.
      cbn. apply extends_refl.
  - intros m. cbn [getCidAndCsrf]. unfold bind, count_bootstrap, this.
    cbn [self entered].
    destruct (GoString.nonempty (apikey (self m))).
    { cbn. apply extends_entered. }
    unfold http_NewRequest. destruct (url_Parse (endpoint (self m))).
    { cbn. apply extends_entered. }
    match goal with |- context [handleRequest fuel ?r ?x] =>
      pose proof (IHh r x) as Hcall;
      destruct (handleRequest fuel r x) as [r0 m'|m'|]
    end; cbn in *.
    + assert (Hmm' : extends m m')
        by eauto using extends_trans, extends_entered.
      destruct (snd r0); [exact Hmm'|].
      repeat match goal with
        | |- context [if ?b then _ else _] => destruct b
        end; exact Hmm'.
    + eauto using extends_trans, extends_entered.
    + exact I.
Qed.


Lemma getCidAndCsrf_extends (fuel : nat) (m : Machine) :
  post (extends m) (getCidAndCsrf fuel m).
Proof. apply calls_extend. Qed.



End Frame.

(** ** Session bootstrap *)

Section Bootstrap.

Context `{GoRuntime}.

(** A request handled without error was answered with status 200, and
    the response handed back is the server's. *)
Lemma handleRequest_success (fuel : nat) (request : Request) (m m' : Machine)
    (res : option Response) :
  handleRequest fuel request m = Returns (res, None) m' ->
  exists response,
    res = Some response /\ StatusCode response = 200
    /\ remote m (length (wire m)) = Answer response.
Proof.
  destruct fuel as [|fuel]; [discriminate|].
  destruct (attachCredentials (self m) request) as [request'|] eqn:Hattach.
  2:{ cbn [handleRequest]. unfold bind, this. rewrite Hattach. discriminate. }
  destruct (remote m (length (wire m))) as [msg|response] eqn:Hreply.
  { cbn [handleRequest]. unfold bind, this. rewrite Hattach.
    cbn. rewrite Hreply. discriminate. }
  destruct (extractCredentials (self m) response) as [c'|] eqn:Hextract.
  2:{ cbn [handleRequest]. unfold bind, this. rewrite Hattach.
      cbn. rewrite Hreply. unfold extractCredentials in Hextract.
      cbn. rewrite Hextract. discriminate. }
  rewrite (handleRequest_answered fuel _ _ _ _ _ Hattach Hreply Hextract).
  cbv zeta.
  destruct (Z.eqb_spec (StatusCode response) 404); [discriminate|].
  destruct (Z.eqb_spec (StatusCode response) 401); [discriminate|].
  destruct (Z.eqb_spec (StatusCode response) 403).
  { destruct (String.eqb (apikey c') ""); [|discriminate].
    unfold bind. destruct (getCidAndCsrf fuel _); discriminate. }
  destruct (Z.eqb_spec (StatusCode response) 200) as [Hok|]; cbn [negb].
  - intros [= <- <-]. exists response. auto.
  - repeat match goal with
      | |- context [if ?b then _ else _] => destruct b
      | |- context [match ?x with _ => _ end] => destruct x
      end; discriminate.
Qed.

(** [getCidAndCsrf] with an API key: nothing is sent, nothing changes. *)
Lemma getCidAndCsrf_apikey (fuel : nat) (m : Machine) :
  apikey (self m) <> "" ->
  getCidAndCsrf (S fuel) m = Returns None (entered m).
Proof.
  intros Hkey. apply nonempty_true in Hkey.
  cbn [getCidAndCsrf]. unfold bind, count_bootstrap, this.
  cbn [self entered]. rewrite Hkey. reflexivity.
Qed.

(** [getCidAndCsrf] without an API key, up to the return of its GET. *)
Lemma getCidAndCsrf_cookie (fuel : nat) (m : Machine) :
  apikey (self m) = "" ->
  getCidAndCsrf (S fuel) m =
    match url_Parse (endpoint (self m)) with
    | Some e => Returns (Some e) (entered m)
    | None =>
        match handleRequest fuel
                {| Method := "GET"; URL := endpoint (self m);
                   ReqBody := None; ReqHeader := ∅; BasicAuth := None |}
                (entered m) with
        | Returns r m' =>
            match snd r with
            | Some e => Returns (Some e) m'
            | None =>
                if String.eqb (id (self m')) "" then
                  Returns (errors_New "Failed to get device ID") m'
                else if negb (CsrfDisable (conf (self m')))
                        && String.eqb (csrf (self m')) "" then
                  Returns (errors_New "Failed to get CSRF token") m'
                else Returns None m'
            end
        | Panics m' => Panics m'
        | OutOfFuel => OutOfFuel
        end
    end.
Proof.
  intros Hkey. apply nonempty_false in Hkey.
  cbn [getCidAndCsrf]. unfold bind, count_bootstrap, this.
  cbn [self entered]. rewrite Hkey. unfold http_NewRequest.
  destruct (url_Parse (endpoint (self m))); [reflexivity|].
  cbn [Verb_name].
  destruct (handleRequest fuel _ _) as [r m'| |]; try reflexivity.
  destruct (snd r); [reflexivity|].
  repeat match goal with
    | |- context [if ?b then _ else _] => destruct b
    end; reflexivity.
Qed.


End Bootstrap.



(** ** The caller's buffer *)

Section Buffer.

Context `{GoRuntime}.

(** What [_HTTPRequest] leaves in a buffer that held [buf]: on an error
    what it held; without error the body of a response the server sent
    with status 200. *)
Lemma _HTTPRequest_buffer (fuel : nat) (method : Verb) (url : string)
    (body : option string) (buf : string) (m m' : Machine)
    (res : option Response) (err : error) (data' : option string) :
  _HTTPRequest fuel method url body (Some buf) m = Returns (res, err, data') m' ->
  match err with
  | Some _ => data' = Some buf
  | None =>
      exists response n,
        remote m n = Answer response /\ StatusCode response = 200
        /\ res = Some (snd (ResponseToBArray response))
        /\ data' = Some (fst (ResponseToBArray response))
  end.
Proof.
  unfold _HTTPRequest. unfold bind at 1. unfold this at 1.
  unfold bind at 1.
  set (lazy := if negb (initDone (self m)) then _ else _).
  assert (Hlazy : post (fun m1 => remote m1 = remote m) (lazy m)).
  { subst lazy. destruct (initDone (self m)); cbn; [reflexivity|].
    unfold bind. pose proof (getCidAndCsrf_extends fuel m) as Hext.
    destruct (getCidAndCsrf fuel m) as [[e|] m1| |]; cbn in *;
      try exact I; apply Hext. }
  destruct (lazy m) as [[] m1| |]; try discriminate. cbn in Hlazy.
  unfold bind at 1. unfold this at 1. unfold http_NewRequest.
  destruct (url_Parse _) as [e|].
  { unfold ret. intros Heq. injection Heq; intros; subst. reflexivity. }
  unfold bind.
  destruct (handleRequest fuel _ m1) as [[res1 [e|]] m2| |] eqn:Hcall;
    try discriminate.
  { destruct res1; unfold ret; intros Heq; injection Heq; intros; subst;
      reflexivity. }
  apply handleRequest_success in Hcall as (response & -> & Hok & Hreply).
  rewrite Hok. cbn [Z.eqb negb].
  destruct (ResponseToBArray response) as [bytes response'] eqn:Hread.
  unfold ret. intros Heq. injection Heq; intros; subst.
  exists response, (length (wire m1)).
  rewrite <- Hlazy, Hread. auto.
Qed.

(** C10. A low-level verb given a buffer writes it only when the call
    ends without error, which is when the response has status 200, and
    then with the body of that response; when the call ends with an error
    (from the transport, from building the request, or for a status
    other than 200) the buffer holds what it held. *)
Theorem buffer_written_only_on_200 (fuel : nat) (url : string) (buf : string)
    (m : Machine) :
  (forall res err data' m',
     HTTPGetWithRes fuel url (Some buf) m = Returns (res, err, data') m' ->
     match err with
     | Some _ => data' = Some buf
     | None =>
         exists response n,
           remote m n = Answer response /\ StatusCode response = 200
           /\ res = Some (snd (ResponseToBArray response))
           /\ data' = Some (fst (ResponseToBArray response))
           /\ (drained (RespBody response) = false ->
               data' = Some (payload (RespBody response)))
     end)
  /\ (forall err data' m',
        HTTPGet fuel url (Some buf) m = Returns (err, data') m' ->
        match err with
        | Some _ => data' = Some buf
        | None =>
            exists response n,
              remote m n = Answer response /\ StatusCode response = 200
              /\ data' = Some (fst (ResponseToBArray response))
              /\ (drained (RespBody response) = false ->
                  data' = Some (payload (RespBody response)))
        end).
Proof.
  split.
  - intros res err data' m' Hrun. apply _HTTPRequest_buffer in Hrun.
    destruct err; [exact Hrun|].
    destruct Hrun as (response & n & Hreply & Hok & Hres & Hdata).
    exists response, n. repeat split; try assumption.
    intros Hfresh. rewrite Hdata, (ResponseToBArray_fresh _ Hfresh).
    reflexivity.
  - intros err data' m'. unfold HTTPGet, bind.
    destruct (_HTTPRequest fuel GET url None (Some buf) m)
      as [[[res err1] data1] m1| |] eqn:Hrun; try discriminate.
    apply _HTTPRequest_buffer in Hrun.
    unfold ret. cbn. intros Heq. injection Heq; intros; subst.
    destruct err; [exact Hrun|].
    destruct Hrun as (response & n & Hreply & Hok & Hres & Hdata).
    exists response, n. repeat split; try assumption.
    intros Hfresh. rewrite Hdata, (ResponseToBArray_fresh _ Hfresh).
    reflexivity.
Qed.

End Buffer.

(** ** API-key mode *)

Lemma attachCredentials_no_token (c : HTTPClient) (request : Request) :
  csrf c = "" -> exists request', attachCredentials c request = Some request'.
Proof.
  intros Htok. unfold attachCredentials.
  apply nonempty_false in Htok. rewrite Htok. eauto.
Qed.

(** A response without the client-ID header leaves a client without
    session as it is. *)
Lemma extractCredentials_nothing (c : HTTPClient) (response : Response) :
  id c = "" ->
  Header.Get (RespHeader response) (HeaderClientKeyName (conf c)) = "" ->
  extractCredentials c response = Some c.
Proof.
  intros Hid Hget. unfold extractCredentials, detectClientID.
  rewrite Hget. cbn. apply scanCookies_no_id. exact Hid.
Qed.

Section ApiKey.

Context `{GoRuntime}.

Lemma handleRequest_apikey (fuel : nat) (request : Request) (m : Machine) :
  apikey (self m) <> "" -> no_session (self m) ->
  (forall response,
     remote m (length (wire m)) = Answer response ->
     Header.Get (RespHeader response) (HeaderClientKeyName (conf (self m))) = "") ->
  ends (fun m' => self m' = self m) (handleRequest (S fuel) request m).
Proof.
  intros Hkey [Hid Htok] Hheader.
  destruct (attachCredentials_no_token (self m) request Htok)
    as [request' Hattach].
  destruct (remote m (length (wire m))) as [msg|response] eqn:Hreply.
  { cbn [handleRequest]. unfold bind, this. rewrite Hattach.
    cbn. rewrite Hreply. reflexivity. }
  pose proof (extractCredentials_nothing _ _ Hid (Hheader _ eq_refl))
    as Hextract.
  rewrite (handleRequest_answered fuel _ _ _ _ _ Hattach Hreply Hextract).
  apply String.eqb_neq in Hkey. rewrite Hkey. cbv zeta.
  repeat match goal with
    | |- context [if ?b then _ else _] => destruct b
    | |- context [match ?x with _ => _ end] => destruct x
    end; reflexivity.
Qed.

(** C3, as the code has it.  A client built with an API key comes out of
    construction without traffic and without session state; bootstrap
    on it returns at once; and a request leaves it without session state
    whenever the reply (if there is one) carries no client-ID header.  (A
    reply that carries one is stored as in cookie mode.) *)
Theorem apikey_mode_session_state (fuel : nat) (baseURL : string)
    (cfg : HTTPClientConfig) (server : nat -> Reply) :
  Apikey cfg <> "" ->
  (exists m0,
     HTTPNewClient (S fuel) baseURL cfg server = Returns None m0
     /\ wire m0 = [] /\ apikey (self m0) = Apikey cfg
     /\ no_session (self m0))
  /\ (forall m, apikey (self m) = Apikey cfg ->
        getCidAndCsrf (S fuel) m = Returns None (entered m))
  /\ (forall m method url body data,
        apikey (self m) = Apikey cfg -> no_session (self m) ->
        (forall response,
           remote m (length (wire m)) = Answer response ->
           Header.Get (RespHeader response)
             (HeaderClientKeyName (conf (self m))) = "") ->
        ends (fun m' => apikey (self m') = Apikey cfg /\ no_session (self m'))
          (_HTTPRequest (S fuel) method url body data m)).
Proof.
  intros Hkey. split; [|split].
  - unfold HTTPNewClient, bind.
    rewrite getCidAndCsrf_apikey by exact Hkey.
    eexists. split; [reflexivity|]. repeat split.
  - intros m Hm. apply getCidAndCsrf_apikey. congruence.
  - intros m method url body data Hm Hnone Hheader.
    unfold _HTTPRequest. unfold bind at 1. unfold this at 1.
    unfold bind at 1.
    set (lazy := if negb (initDone (self m)) then _ else _).
    assert (Hlazy : exists m1,
               lazy m = Returns tt m1 /\ remote m1 = remote m
               /\ wire m1 = wire m /\ apikey (self m1) = Apikey cfg
               /\ conf (self m1) = conf (self m) /\ no_session (self m1)).
    { subst lazy. destruct (initDone (self m)); cbn [negb].
      - exists m. repeat split; try assumption; apply Hnone.
      - unfold bind. rewrite getCidAndCsrf_apikey by congruence.
        eexists. split; [reflexivity|].
        repeat split; try assumption; apply Hnone. }
    destruct Hlazy as (m1 & -> & Hremote & Hwire & Hkey1 & Hconf & Hnone1).
    unfold bind at 1. unfold this at 1. unfold http_NewRequest.
    destruct (url_Parse _) as [e|]; [cbn; auto|].
    unfold bind.
    match goal with |- context [handleRequest _ ?r m1] =>
      pose proof (handleRequest_apikey fuel r m1) as Hcall
    end.
    destruct (handleRequest (S fuel) _ m1) as [[res err] m2|m0|];
      cbn in Hcall.
    + assert (Hself : self m2 = self m1).
      { apply Hcall; [congruence|exact Hnone1|].
        rewrite Hremote, Hwire, Hconf. exact Hheader. }
      assert (Hend : apikey (self m2) = Apikey cfg /\ no_session (self m2))
        by (rewrite Hself; auto).
      destruct err, res; cbn; try exact Hend.
      repeat match goal with
        | |- context [if ?b then _ else _] => destruct b
        | |- context [match ?x with _ => _ end] => destruct x
        end; exact Hend.
    + assert (Hself : self m0 = self m1).
      { apply Hcall; [congruence|exact Hnone1|].
        rewrite Hremote, Hwire, Hconf. exact Hheader. }
      cbn. rewrite Hself. auto.
    + apply Hcall; [congruence|exact Hnone1|].
      rewrite Hremote, Hwire, Hconf. exact Hheader.
Qed.

End ApiKey.

(** ** When the session is negotiated *)

Section Initialisation.

Context `{GoRuntime}.




End Initialisation.

(** ** The budget does not matter

    A call that ends within some budget ends the same way within any
    larger one: the budget only cuts short the runs whose recursion goes
    deeper. *)

Section Fuel.

Context `{GoRuntime}.



(** A request whose answer is not a 403 enters no bootstrap, sends
    nothing but itself, and ends. *)
Lemma handleRequest_without_refresh (fuel : nat) (request : Request)
    (m : Machine) :
  (forall response,
     remote m (length (wire m)) = Answer response ->
     StatusCode response <> 403) ->
  ends (fun m' => bootstraps m' = bootstraps m
                  /\ (length (wire m') <= S (length (wire m)))%nat)
    (handleRequest (S fuel) request m).
Proof.
  intros Hcode.
  destruct (attachCredentials (self m) request) as [request'|] eqn:Hattach.
  2:{ cbn [handleRequest]. unfold bind, this. rewrite Hattach.
      cbn. split; [reflexivity | lia]. }
  assert (Hsent : bootstraps (sent request' m) = bootstraps m
                  /\ (length (wire (sent request' m)) <= S (length (wire m)))%nat).
  { split; [reflexivity|]. cbn. rewrite length_app. cbn. lia. }
  destruct (remote m (length (wire m))) as [msg|response] eqn:Hreply.
  { cbn [handleRequest]. unfold bind, this. rewrite Hattach.
    cbn. rewrite Hreply. exact Hsent. }
  destruct (extractCredentials (self m) response) as [c'|] eqn:Hextract.
  2:{ cbn [handleRequest]. unfold bind, this. rewrite Hattach.
      cbn. rewrite Hreply. unfold extractCredentials in Hextract.
      cbn. rewrite Hextract. exact Hsent. }
  rewrite (handleRequest_answered fuel _ _ _ _ _ Hattach Hreply Hextract).
  destruct (Z.eqb_spec (StatusCode response) 403) as [Hforbidden|_].
  { exfalso. exact (Hcode response eq_refl Hforbidden). }
  cbv zeta.
  repeat match goal with
    | |- context [if ?b then _ else _] => destruct b
    | |- context [match ?x with _ => _ end] => destruct x
    end; exact Hsent.
Qed.

(** The part of the refresh that works: a 403 in cookie mode, when the GET
    of the refresh is answered with anything but a 403, enters the
    bootstrap once, sends that one GET at most, and ends with the
    invalid-CSRF error unless the GET panics. *)
Lemma refresh_once_unless_403_again (fuel : nat) (request request' : Request)
    (m : Machine) (response : Response) (c' : HTTPClient) :
  attachCredentials (self m) request = Some request' ->
  remote m (length (wire m)) = Answer response ->
  extractCredentials (self m) response = Some c' ->
  StatusCode response = 403 -> apikey (self m) = "" ->
  (forall response',
     remote m (S (length (wire m))) = Answer response' ->
     StatusCode response' <> 403) ->
  match handleRequest (S (S (S fuel))) request m with
  | Returns r m' =>
      r = (None, errors_New "Invalid CSRF token")
      /\ bootstraps m' = S (bootstraps m)
      /\ (length (wire m') <= S (S (length (wire m))))%nat
  | Panics m' => bootstraps m' = S (bootstraps m)
  | OutOfFuel => False
  end.
Proof.
  intros Hattach Hreply Hextract Hcode Hkey Hnext.
  rewrite (handleRequest_answered (S (S fuel)) _ _ _ _ _
             Hattach Hreply Hextract).
  rewrite Hcode. cbn [Z.eqb Pos.eqb].
  apply extractCredentials_static in Hextract as (Hkey' & _).
  rewrite Hkey', Hkey. cbn [String.eqb]. unfold bind.
  set (m1 := with_self c' (sent request' m)).
  assert (Hkey1 : apikey (self m1) = "") by (cbn; congruence).
  rewrite (getCidAndCsrf_cookie (S fuel) m1 Hkey1).
  destruct (url_Parse (endpoint (self m1))).
  { cbn. rewrite length_app. cbn. repeat split; try reflexivity; lia. }
  match goal with |- context [handleRequest (S fuel) ?q ?x] =>
    pose proof (handleRequest_without_refresh fuel q x) as Hcall;
    destruct (handleRequest (S fuel) q x) as [r0 m2|m2|]
  end; cbn in Hcall.
  - destruct Hcall as [Hb Hw].
    { intros response'. cbn. rewrite length_app. cbn.
      rewrite Nat.add_1_r. apply Hnext. }
    cbn in Hb, Hw. rewrite length_app in Hw. cbn in Hw.
    destruct (snd r0);
      repeat match goal with
        | |- context [if ?b then _ else _] => destruct b
        end; cbn; repeat split; try assumption; lia.
  - destruct Hcall as [Hb Hw]; [|exact Hb].
    intros response'. cbn. rewrite length_app. cbn.
    rewrite Nat.add_1_r. apply Hnext.
  - apply Hcall. intros response'. cbn. rewrite length_app. cbn.
    rewrite Nat.add_1_r. apply Hnext.
Qed.

End Fuel.

(** ** The status decides *)

Section Classification.

Context `{GoRuntime}.






End Classification.

(** ** The client at work: closed runs *)



(** C3 as the specification words it, refuted: a client built with an API
    key stores the client ID and the CSRF token of a reply that carries
    them. *)
Lemma apikey_mode_stores_client_id :
  ~ (forall e0 m0 r m1,
       HTTPNewClient 1 "http://h" (Scenario.cfg "k3y")
         (Scenario.always (Scenario.login 200 "200 OK")) = Returns e0 m0 ->
       HTTPGet 1 "/foo" None m0 = Returns r m1 ->
       id (self m1) = "" /\ csrf (self m1) = "").
Proof.
  intros Hclaim.
  run (HTTPNewClient 1 "http://h" (Scenario.cfg "k3y")
         (Scenario.always (Scenario.login 200 "200 OK"))) Hnew.
  match type of Hnew with _ = Returns _ ?m0 =>
    run (HTTPGet 1 "/foo" None m0) Hget
  end.
  destruct (Hclaim _ _ _ _ eq_refl Hget) as [Hid _]. discriminate Hid.
Qed.

Lemma apikey_mode_session_state_witness :
  exists m0,
    HTTPNewClient 1 "http://h" (Scenario.cfg "k3y")
      (Scenario.always Scenario.forbidden) = Returns None m0
    /\ wire m0 = [] /\ no_session (self m0)
    /\ ends (fun m' => no_session (self m'))
         (_HTTPRequest 1 GET "/foo" None None m0).
Proof.
  destruct (apikey_mode_session_state 0 "http://h" (Scenario.cfg "k3y")
              (Scenario.always Scenario.forbidden))
    as ((m0 & Hnew & Hwire & Hkey & Hnone) & _ & Hreq).
  { discriminate. }
  exists m0. repeat split; try assumption; try apply Hnone.
  assert (Hm0 : remote m0 = Scenario.always Scenario.forbidden
                /\ conf (self m0) = Scenario.cfg "k3y").
  { vm_compute in Hnew. injection Hnew as <-. split; reflexivity. }
  destruct Hm0 as [Hremote Hconf].
  specialize (Hreq m0 GET "/foo" None None Hkey Hnone).
  destruct (_HTTPRequest 1 GET "/foo" None None m0); cbn in *;
    apply Hreq; intros response; rewrite Hremote, Hconf;
    intros Hanswer; injection Hanswer as <-; reflexivity.
Defined.


Lemma buffer_written_only_on_200_witness :
  let ok := Scenario.machine (Scenario.client "" "" "")
              (Scenario.always (Scenario.login 200 "200 OK")) in
  let ko := Scenario.machine (Scenario.client "" "" "")
              (Scenario.always (Scenario.login 404 "404 Not Found")) in
  (exists m', HTTPGet 2 "/foo" (Some "stale") ok = Returns (None, Some "[]") m')
  /\ (exists e m', HTTPGet 2 "/foo" (Some "stale") ko
                   = Returns (Some e, Some "stale") m').
Proof.
  intros ok ko. split.
  - destruct (buffer_written_only_on_200 2 "/foo" "stale" ok) as [_ Hget].
    destruct (HTTPGet 2 "/foo" (Some "stale") ok) as [[err data'] m'| |]
      eqn:Hrun; try (vm_compute in Hrun; discriminate).
    specialize (Hget err data' m' eq_refl).
    assert (Herr : err = None)
      by (vm_compute in Hrun; injection Hrun; intros; subst; reflexivity).
    subst err. destruct Hget as (response & n & Hreply & _ & _ & Hfresh).
    injection Hreply as <-. rewrite (Hfresh eq_refl). eauto.
  - destruct (buffer_written_only_on_200 2 "/foo" "stale" ko) as [_ Hget].
    destruct (HTTPGet 2 "/foo" (Some "stale") ko) as [[err data'] m'| |]
      eqn:Hrun; try (vm_compute in Hrun; discriminate).
    specialize (Hget err data' m' eq_refl).
    destruct err as [e|];
      [|vm_compute in Hrun; injection Hrun; intros; discriminate].
    rewrite Hget. eauto.
Defined.

(** With a token to send and an ID of fewer than five bytes, attaching the
    credentials panics. *)
Lemma attachCredentials_short_id (c : HTTPClient) (request : Request) :
  csrf c <> "" -> (String.length (id c) < 5)%nat ->
  attachCredentials c request = None.
Proof.
  intros Htok Hlen. unfold attachCredentials.
  apply nonempty_true in Htok. rewrite Htok, (slice_to_none _ _ Hlen).
  reflexivity.
Qed.

(** C2, where the code departs from it.  A reply that names a client ID of
    three bytes and carries a cookie makes the cookie scan panic; once a
    token is stored, a reply that shortens the ID (and carries no cookie)
    is taken in, and the next request panics while its credentials are
    attached; and a reply with another status whose JSON body has an
    [error] member that is not a string panics in the type assertion. *)
Theorem short_client_id_panics :
  (exists m',
     handleRequest 1 (Scenario.get "http://h/rest/foo")
       (Scenario.machine (Scenario.client "" "" "")
          (Scenario.always Scenario.short_id)) = Panics m'
     /\ id (self m') = "abc")
  /\ (exists m0 r m1 m2,
        HTTPNewClient 2 "http://h" (Scenario.cfg "")
          (Scenario.script [Scenario.login 200 "200 OK"] Scenario.short_id_bare)
          = Returns None m0
        /\ HTTPGet 2 "/foo" None m0 = Returns r m1
        /\ id (self m1) = "abc" /\ csrf (self m1) = "tok1"
        /\ HTTPGet 2 "/foo" None m1 = Panics m2)
  /\ (exists m',
        handleRequest 1 (Scenario.get "http://h/rest/foo")
          (Scenario.machine (Scenario.client "" "" "")
             (Scenario.always
                (Scenario.failure (Scenario.error_object "5")))) = Panics m').
Proof.
  split; [|split].
  - eexists. split; vm_compute; reflexivity.
  - run (HTTPNewClient 2 "http://h" (Scenario.cfg "")
           (Scenario.script [Scenario.login 200 "200 OK"]
              Scenario.short_id_bare)) Hnew.
    match type of Hnew with _ = Returns _ ?m0 =>
      run (HTTPGet 2 "/foo" None m0) Hfirst
    end.
    match type of Hfirst with _ = Returns _ ?m1 =>
      run (HTTPGet 2 "/foo" None m1) Hsecond
    end.
    do 4 eexists. split; [reflexivity|].
    split; [exact Hfirst|]. split; [reflexivity|]. split; [reflexivity|].
    exact Hsecond.
  - eexists. vm_compute. reflexivity.
Qed.

(** Against a server that answers 403 to everything neither call comes
    back, whatever the budget. *)
Lemma locked_out_never_returns (fuel : nat) :
  (forall request w b,
     handleRequest fuel request (Scenario.locked_out w b) = OutOfFuel)
  /\ (forall w b, getCidAndCsrf fuel (Scenario.locked_out w b) = OutOfFuel).
Proof.
  induction fuel as [|fuel [IHh IHg]]; [split; reflexivity|].
  split.
  - intros request w b.
    rewrite (handleRequest_answered fuel request request
               (Scenario.locked_out w b) Scenario.forbidden
               (Scenario.client "" "" "") eq_refl eq_refl eq_refl).
    cbn. unfold bind.
    change (with_self _ _) with (Scenario.locked_out (w ++ [request]) b).
    rewrite IHg. reflexivity.
  - intros w b. rewrite getCidAndCsrf_cookie by reflexivity.
    cbn -[handleRequest].
    change (entered _) with (Scenario.locked_out w (S b)).
    rewrite IHh. reflexivity.
Qed.

(** C1, where the code departs from it.  A 403 to the GET of the refresh
    starts a refresh of its own: against a server that answers 403 twice
    and then lets the client in, one request enters the bootstrap twice
    (and still ends with the invalid-CSRF error); against a server that
    answers 403 to everything the nesting has no end, and no budget is
    enough for the request to return. *)
Theorem refresh_recurses_on_403 :
  (exists m',
     handleRequest 5 (Scenario.get "http://h/rest/foo")
       (Scenario.machine (Scenario.client "" "" "")
          (Scenario.first 2 Scenario.forbidden (Scenario.login 200 "200 OK")))
       = Returns (None, Some "Invalid CSRF token") m'
     /\ bootstraps m' = 2%nat /\ length (wire m') = 3%nat)
  /\ (forall fuel,
        handleRequest fuel (Scenario.get "http://h/rest/foo")
          (Scenario.machine (Scenario.client "" "" "")
             (Scenario.always Scenario.forbidden)) = OutOfFuel).
Proof.
  split.
  - eexists. split; [vm_compute; reflexivity|]. split; reflexivity.
  - intros fuel. apply (locked_out_never_returns fuel).
Qed.

(** C6, where the code departs from it.  No API key is configured, the
    request is out, the answer is a 403 and the credentials it carries are
    taken in; the refresh that the 403 starts is answered 403 as well, and
    the invalid-CSRF error is never returned: no budget lets the call
    return at all.  With an API key configured the same server is told
    apart, by the invalid-API-key error. *)
Theorem invalid_csrf_error_not_returned :
  let request := Scenario.get "http://h/rest/foo" in
  let server := Scenario.always Scenario.forbidden in
  let m := Scenario.machine (Scenario.client "" "" "") server in
  let keyed := Scenario.machine (Scenario.client "k" "" "") server in
  (apikey (self m) = ""
   /\ attachCredentials (self m) request = Some request
   /\ remote m (length (wire m)) = Answer Scenario.forbidden
   /\ StatusCode Scenario.forbidden = 403
   /\ extractCredentials (self m) Scenario.forbidden = Some (self m)
   /\ forall fuel result m', handleRequest fuel request m <> Returns result m')
  /\ (exists m',
        handleRequest 1 request keyed =
          Returns (None, Some "Invalid API key") m').
Proof.
  split.
  - do 5 (split; [reflexivity|]).
    intros fuel result m' Hrun.
    destruct (locked_out_never_returns fuel) as [Hnever _].
    specialize (Hnever (Scenario.get "http://h/rest/foo") [] 0%nat).
    change (Scenario.locked_out [] 0) with
      (Scenario.machine (Scenario.client "" "" "")
         (Scenario.always Scenario.forbidden)) in Hnever.
    cbv zeta in Hrun. rewrite Hnever in Hrun. discriminate.
  - eexists. vm_compute. reflexivity.
Qed.

(** C4, where the code departs from it.  A 500 whose body is the text
    "oops" is reported with the status line, not with the body: the body
    was read, and closed, for the JSON decoding. *)
Theorem raw_body_fallback_never_used :
  exists m',
    handleRequest 1 (Scenario.get "http://h/rest/foo")
      (Scenario.machine (Scenario.client "" "" "")
         (Scenario.always (Scenario.failure "oops")))
    = Returns (None, Some "Unknown HTTP status returned: 500 Internal Server Error")
        m'.
Proof.
  eexists.
  apply (other_status_without_error_field 0
           (Scenario.get "http://h/rest/foo") (Scenario.get "http://h/rest/foo")
           (Scenario.machine (Scenario.client "" "" "")
              (Scenario.always (Scenario.failure "oops")))
           (Scenario.failure "oops") (Scenario.client "" "" ""));
    try reflexivity.
  cbn. intuition discriminate.
Qed.

(** The part of the chain that works: the [error] member of a JSON body is
    the message. *)
Lemma error_field_is_message :
  exists m',
    handleRequest 1 (Scenario.get "http://h/rest/foo")
      (Scenario.machine (Scenario.client "" "" "")
         (Scenario.always
            (Scenario.failure
               (Scenario.error_object (Scenario.quoted "disk full")))))
    = Returns (None, Some "disk full") m'.
Proof. eexists. vm_compute. reflexivity. Qed.


(** * Further properties of the client *)

(** ** Strings *)

Lemma append_cons (a : ascii) (s t : string) :
  String a s +:+ t = String a (s +:+ t).
Proof. reflexivity. Qed.

Lemma append_nil_r (s : string) : s +:+ "" = s.
Proof.
  induction s as [|a s IH]; [reflexivity|]. rewrite append_cons, IH.
  reflexivity.
Qed.

Lemma append_assoc (s t u : string) : (s +:+ t) +:+ u = s +:+ (t +:+ u).
Proof.
  induction s as [|a s IH]; [reflexivity|]. rewrite !append_cons, IH.
  reflexivity.
Qed.

Lemma append_eq_nil (s t : string) : s +:+ t = "" -> t = "".
Proof. destruct s; [auto | discriminate]. Qed.

(** Whether a string ends with a slash is decided by its last byte. *)
Lemma HasSuffix_slash_cons (a : ascii) (rest : string) :
  GoString.HasSuffix (String a rest) "/" =
    if String.eqb rest "" then Ascii.eqb a "/"%char
    else GoString.HasSuffix rest "/".
Proof.
  unfold GoString.HasSuffix. cbn [String.length Nat.leb].
  destruct rest as [|b rest'].
  - cbn. destruct (Ascii.eqb a "/"%char); reflexivity.
  - cbn [String.length Nat.sub]. rewrite !Nat.sub_0_r.
    cbn [String.substring String.eqb]. reflexivity.
Qed.

Lemma HasSuffix_app_slash (s : string) : GoString.HasSuffix (s +:+ "/") "/" = true.
Proof.
  induction s as [|a s IH]; [reflexivity|].
  rewrite append_cons, HasSuffix_slash_cons.
  destruct (String.eqb_spec (s +:+ "/") "") as [E|_]; [|exact IH].
  apply append_eq_nil in E. discriminate.
Qed.

Lemma HasSuffix_app_nonempty (s t : string) :
  t <> "" -> GoString.HasSuffix (s +:+ t) "/" = GoString.HasSuffix t "/".
Proof.
  intros Ht. induction s as [|a s IH]; [reflexivity|].
  rewrite append_cons, HasSuffix_slash_cons.
  destruct (String.eqb_spec (s +:+ t) "") as [E|_]; [|exact IH].
  apply append_eq_nil in E. contradiction.
Qed.

Lemma TrimLeft_no_slash (s : string) :
  leads_with_slash s = false -> GoString.TrimLeft s "/" = s.
Proof.
  destruct s as [|a s]; [reflexivity|]. cbn. intros ->. reflexivity.
Qed.

Lemma TrimLeft_slashes (n : nat) (s : string) :
  GoString.TrimLeft (slashes n +:+ s) "/" = GoString.TrimLeft s "/".
Proof.
  induction n as [|n IH]; [reflexivity|].
  cbn [slashes]. rewrite append_cons. cbn. exact IH.
Qed.

Lemma TrimLeft_leads (s : string) :
  leads_with_slash (GoString.TrimLeft s "/") = false.
Proof.
  induction s as [|a s IH]; [reflexivity|]. cbn.
  destruct (Ascii.eqb a "/"%char) eqn:E; cbn; [exact IH | exact E].
Qed.

(** The endpoint with a slash at its end, added if it has none. *)
Lemma formatURL_unfold (c : HTTPClient) (endURL : string) :
  formatURL c endURL =
    let base := if GoString.HasSuffix (endpoint c) "/" then endpoint c
                else endpoint c +:+ "/" in
    let joined := base +:+ GoString.TrimLeft (URLPrefix (conf c)) "/" in
    (if GoString.HasSuffix joined "/" then joined else joined +:+ "/")
      +:+ GoString.TrimLeft endURL "/".
Proof.
  unfold formatURL. destruct (GoString.HasSuffix (endpoint c) "/"); cbn;
    destruct (GoString.HasSuffix _ "/"); reflexivity.
Qed.

(** ** URL joining, in general *)

(** X1. For an endpoint [e] without a slash at its end, a prefix [p] and a
    path [u] without a slash at their head ([p] not empty and without a
    slash at its end), every decoration of the three with one slash or
    none at the end of the endpoint and of the prefix and any number of
    slashes at the head of the prefix and of the path joins to
    [e/p/u]. *)
Theorem formatURL_join (c : HTTPClient) (e p u : string) (i j : nat)
    (a b : bool) :
  GoString.HasSuffix e "/" = false ->
  p <> "" -> leads_with_slash p = false -> GoString.HasSuffix p "/" = false ->
  leads_with_slash u = false ->
  endpoint c = e +:+ maybe_slash a ->
  URLPrefix (conf c) = slashes i +:+ p +:+ maybe_slash b ->
  formatURL c (slashes j +:+ u) = e +:+ "/" +:+ p +:+ "/" +:+ u.
Proof.
  intros He Hp Hlead Hend Hu Hendpoint Hprefix.
  rewrite formatURL_unfold, Hendpoint, Hprefix. cbv zeta.
  rewrite !TrimLeft_slashes, (TrimLeft_no_slash u Hu).
  assert (Hlead' : leads_with_slash (p +:+ maybe_slash b) = false).
  { destruct p; [contradiction|exact Hlead]. }
  rewrite (TrimLeft_no_slash _ Hlead').
  assert (Hbase : (if GoString.HasSuffix (e +:+ maybe_slash a) "/"
                   then e +:+ maybe_slash a
                   else (e +:+ maybe_slash a) +:+ "/") = e +:+ "/").
  { destruct a; cbn [maybe_slash].
    - rewrite HasSuffix_app_slash. reflexivity.
    - rewrite append_nil_r, He. reflexivity. }
  rewrite Hbase. destruct b; cbn [maybe_slash].
  - rewrite <- !append_assoc, HasSuffix_app_slash. reflexivity.
  - rewrite append_nil_r.
    rewrite (HasSuffix_app_nonempty (e +:+ "/") p Hp), Hend.
    rewrite !append_assoc. reflexivity.
Qed.

Lemma formatURL_join_witness :
  formatURL
    {| LoggerLevel := 1; LoggerPrefix := ""; initDone := true;
       endpoint := "https://xds.example:8000/"; apikey := ""; username := "";
       password := ""; id := ""; csrf := "";
       conf := {| URLPrefix := "//api/v1"; HeaderAPIKeyName := "";
                  Apikey := ""; HeaderClientKeyName := "";
                  CsrfDisable := false; LogLevel := 1; LogPrefix := "" |} |}
    "///folders/42"
  = "https://xds.example:8000/api/v1/folders/42".
Proof.
  apply (formatURL_join _ "https://xds.example:8000" "api/v1" "folders/42"
           2 3 true false); try reflexivity.
  discriminate.
Defined.

(** X2. A prefix that is empty, or made of slashes only, leaves no empty
    segment: the path follows the one slash that ends the endpoint. *)
Theorem formatURL_without_prefix (c : HTTPClient) (u : string) (i : nat) :
  URLPrefix (conf c) = slashes i ->
  formatURL c u =
    (if GoString.HasSuffix (endpoint c) "/" then endpoint c
     else endpoint c +:+ "/") +:+ GoString.TrimLeft u "/".
Proof.
  intros Hprefix. rewrite formatURL_unfold, Hprefix. cbv zeta.
  replace (GoString.TrimLeft (slashes i) "/") with "".
  2:{ rewrite <- (append_nil_r (slashes i)), TrimLeft_slashes. reflexivity. }
  rewrite append_nil_r.
  destruct (GoString.HasSuffix (endpoint c) "/") eqn:E.
  - rewrite E. reflexivity.
  - rewrite HasSuffix_app_slash. reflexivity.
Qed.

Lemma formatURL_without_prefix_witness :
  formatURL
    {| LoggerLevel := 1; LoggerPrefix := ""; initDone := true;
       endpoint := "http://h"; apikey := ""; username := "";
       password := ""; id := ""; csrf := "";
       conf := {| URLPrefix := "/"; HeaderAPIKeyName := "";
                  Apikey := ""; HeaderClientKeyName := "";
                  CsrfDisable := false; LogLevel := 1; LogPrefix := "" |} |}
    "/version"
  = "http://h/version".
Proof.
  rewrite (formatURL_without_prefix _ "/version" 1); reflexivity.
Defined.

(** X3. Whatever the three inputs, the URL begins with the endpoint as it
    was given, ends with the path stripped of the slashes at its head, and
    the byte before that path is a slash. *)
Theorem formatURL_shape (c : HTTPClient) (u : string) :
  exists mid,
    formatURL c u = (endpoint c +:+ mid) +:+ GoString.TrimLeft u "/"
    /\ GoString.HasSuffix (endpoint c +:+ mid) "/" = true
    /\ leads_with_slash (GoString.TrimLeft u "/") = false.
Proof.
  rewrite formatURL_unfold. cbv zeta.
  set (t := GoString.TrimLeft (URLPrefix (conf c)) "/").
  destruct (GoString.HasSuffix (endpoint c) "/") eqn:He.
  - destruct (GoString.HasSuffix (endpoint c +:+ t) "/") eqn:Ht.
    + exists t. auto using TrimLeft_leads.
    + exists (t +:+ "/"). rewrite <- !append_assoc.
      split; [reflexivity|]. split; [apply HasSuffix_app_slash|].
      apply TrimLeft_leads.
  - destruct (GoString.HasSuffix ((endpoint c +:+ "/") +:+ t) "/") eqn:Ht.
    + exists ("/" +:+ t). rewrite <- !append_assoc.
      split; [reflexivity|]. split; [exact Ht | apply TrimLeft_leads].
    + exists ("/" +:+ t +:+ "/"). rewrite <- !append_assoc.
      split; [reflexivity|]. split; [apply HasSuffix_app_slash|].
      apply TrimLeft_leads.
Qed.

(** ** What a request carries *)

Lemma Header_Get_Set (h : gmap string (list string)) (key value : string) :
  Header.Get (Header.Set_ h key value) key = value.
Proof. unfold Header.Get, Header.Set_. rewrite lookup_insert_eq. reflexivity. Qed.

Lemma Header_Get_Set_other (h : gmap string (list string))
    (key key' value : string) :
  Header.CanonicalMIMEHeaderKey key <> Header.CanonicalMIMEHeaderKey key' ->
  Header.Get (Header.Set_ h key value) key' = Header.Get h key'.
Proof.
  intros Hne. unfold Header.Get, Header.Set_.
  rewrite lookup_insert_ne by exact Hne. reflexivity.
Qed.

(** The credentials are attached whenever there is no token to send or the
    client ID has the five bytes the header name takes from it. *)
Lemma attachCredentials_succeeds (c : HTTPClient) (request : Request) :
  csrf c = "" \/ (5 <= String.length (id c))%nat ->
  exists request', attachCredentials c request = Some request'.
Proof.
  intros [Htok|Hlen].
  - apply attachCredentials_no_token. exact Htok.
  - unfold attachCredentials. rewrite (slice_to_some _ _ Hlen).
    destruct (GoString.nonempty (csrf c)); eauto.
Qed.

Lemma attachCredentials_request_fields (c : HTTPClient)
    (request request' : Request) :
  attachCredentials c request = Some request' ->
  Method request' = Method request /\ URL request' = URL request
  /\ ReqBody request' = ReqBody request.
Proof.
  unfold attachCredentials.
  destruct (_ && _), (_ && _), (_ || _), (GoString.nonempty (csrf c));
    try destruct (GoString.slice_to (id c) 5);
    intros Heq; inversion Heq; repeat split; reflexivity.
Qed.

(** X4. Attaching the credentials changes headers and authentication
    only: the method, the URL and the body of the request go out as they
    were built. *)
Theorem attachCredentials_keeps_request (c : HTTPClient)
    (request request' : Request) :
  attachCredentials c request = Some request' ->
  Method request' = Method request /\ URL request' = URL request
  /\ ReqBody request' = ReqBody request.
Proof.
  unfold attachCredentials. intros Hattach.
  destruct (GoString.nonempty (csrf c)).
  - destruct (GoString.slice_to (id c) 5) as [prefix|]; [|discriminate].
    injection Hattach as <-. cbn.
    destruct (_ || _), (_ && _), (_ && _); cbn; auto.
  - injection Hattach as <-.
    destruct (_ || _), (_ && _), (_ && _); cbn; auto.
Qed.

Lemma attachCredentials_keeps_request_witness :
  exists request',
    attachCredentials (Scenario.client "" "abc123" "tok1")
      (Scenario.get "http://h/rest/foo") = Some request'
    /\ Method request' = "GET" /\ URL request' = "http://h/rest/foo"
    /\ ReqBody request' = None.
Proof.
  destruct (attachCredentials (Scenario.client "" "abc123" "tok1")
              (Scenario.get "http://h/rest/foo")) as [request'|] eqn:Hattach;
    [|vm_compute in Hattach; discriminate].
  exists request'. split; [reflexivity|].
  exact (attachCredentials_keeps_request _ _ _ Hattach).
Defined.

(** X5. The token travels back under the name the cookie gave it: when a
    response leaves a client ID of five bytes or more and carries a cookie
    named "CSRF-Token-" plus the first five bytes of that ID with a value
    that is not empty, the next request carries that value in the header
    "X-CSRF-Token-" plus the same five bytes; and it carries the client ID
    in the configured client-ID header, unless that name is the token
    header's. *)
Theorem csrf_token_echoed (c c' : HTTPClient) (response : Response)
    (item : Cookie) (request : Request) :
  extractCredentials c response = Some c' ->
  (5 <= String.length (id c'))%nat ->
  List.find
    (fun item => String.eqb (Name item)
       ("CSRF-Token-" +:+ String.substring 0 5 (id c')))
    (Cookies response) = Some item ->
  Value item <> "" ->
  exists request',
    attachCredentials c' request = Some request'
    /\ csrf c' = Value item
    /\ Header.Get (ReqHeader request')
         ("X-CSRF-Token-" +:+ String.substring 0 5 (id c')) = Value item
    /\ (HeaderClientKeyName (conf c') <> "" ->
        Header.CanonicalMIMEHeaderKey
          ("X-CSRF-Token-" +:+ String.substring 0 5 (id c'))
        <> Header.CanonicalMIMEHeaderKey (HeaderClientKeyName (conf c')) ->
        Header.Get (ReqHeader request') (HeaderClientKeyName (conf c'))
        = id c').
Proof.
  intros Hextract Hlen Hfind Hvalue. unfold extractCredentials in Hextract.
  pose proof (scanCookies_static _ _ _ Hextract) as (_ & _ & _ & _ & Hid).
  rewrite Hid in Hlen, Hfind |- *.
  rewrite (scanCookies_long_id _ _ Hlen), Hfind in Hextract.
  injection Hextract as <-.
  set (d := detectClientID c response) in *.
  assert (Hne : GoString.nonempty (id d) = true).
  { apply nonempty_true. intros E. rewrite E in Hlen. cbn in Hlen. lia. }
  unfold attachCredentials. cbn [csrf set_csrf id conf apikey username password].
  apply nonempty_true in Hvalue. rewrite Hvalue, (slice_to_some _ _ Hlen).
  eexists. split; [reflexivity|]. split; [reflexivity|].
  cbn [ReqHeader Request_Header_Set]. split; [apply Header_Get_Set|].
  intros Hname Hother. rewrite Header_Get_Set_other by exact Hother.
  apply nonempty_true in Hname. rewrite Hname, Hne. cbn [andb].
  destruct (_ || _); cbn [ReqHeader Request_Header_Set Request_SetBasicAuth];
    apply Header_Get_Set.
Qed.

Lemma csrf_token_echoed_witness :
  exists c' request',
    extractCredentials (Scenario.client "" "" "")
      (Scenario.login 200 "200 OK") = Some c'
    /\ attachCredentials c' (Scenario.get "http://h/rest/foo") = Some request'
    /\ Header.Get (ReqHeader request') "X-CSRF-Token-abc12" = "tok1"
    /\ Header.Get (ReqHeader request') "ClientID" = "abc123".
Proof.
  destruct (extractCredentials (Scenario.client "" "" "")
              (Scenario.login 200 "200 OK")) as [c'|] eqn:Hextract;
    [|vm_compute in Hextract; discriminate].
  assert (Hc' : c' = Scenario.client "" "abc123" "tok1")
    by (vm_compute in Hextract; injection Hextract as <-; reflexivity).
  destruct (csrf_token_echoed (Scenario.client "" "" "") c'
              (Scenario.login 200 "200 OK")
              {| Name := "CSRF-Token-abc12"; Value := "tok1" |}
              (Scenario.get "http://h/rest/foo") Hextract)
    as (request' & Hattach & _ & Htoken & Hident).
  { subst c'. vm_compute. lia. }
  { subst c'. reflexivity. }
  { discriminate. }
  exists c', request'. split; [reflexivity|]. split; [exact Hattach|].
  subst c'. split; [exact Htoken|]. apply Hident; vm_compute; discriminate.
Defined.

(** X6. In API-key mode, with no session state, a request carries the key
    under the configured header name and nothing else changes: every other
    header and the authentication are as they were.  With no header name
    configured the key is not sent at all. *)
Theorem apikey_header_attached (c : HTTPClient) (request : Request) :
  apikey c <> "" -> no_session c -> username c = "" -> password c = "" ->
  exists request',
    attachCredentials c request = Some request'
    /\ BasicAuth request' = BasicAuth request
    /\ (HeaderAPIKeyName (conf c) = "" -> request' = request)
    /\ (HeaderAPIKeyName (conf c) <> "" ->
        Header.Get (ReqHeader request') (HeaderAPIKeyName (conf c)) = apikey c
        /\ forall key,
             Header.CanonicalMIMEHeaderKey (HeaderAPIKeyName (conf c))
             <> Header.CanonicalMIMEHeaderKey key ->
             Header.Get (ReqHeader request') key
             = Header.Get (ReqHeader request) key).
Proof.
  intros Hkey [Hid Htok] Huser Hpass. unfold attachCredentials.
  rewrite Hid, Htok, Huser, Hpass. cbn. rewrite andb_false_r.
  apply nonempty_true in Hkey. rewrite Hkey, andb_true_r.
  destruct (GoString.nonempty (HeaderAPIKeyName (conf c))) eqn:Hname.
  - eexists. split; [reflexivity|]. split; [reflexivity|].
    apply nonempty_true in Hname. split; [contradiction|].
    intros _. cbn. split; [apply Header_Get_Set|].
    intros key Hother. apply Header_Get_Set_other. exact Hother.
  - eexists. split; [reflexivity|]. split; [reflexivity|].
    apply nonempty_false in Hname. split; [reflexivity|]. contradiction.
Qed.

Lemma apikey_header_attached_witness :
  exists request',
    attachCredentials (Scenario.client "k3y" "" "")
      (Scenario.get "http://h/rest/foo") = Some request'
    /\ Header.Get (ReqHeader request') "x-api-key" = "k3y"
    /\ Header.Get (ReqHeader request') "ClientID" = "".
Proof.
  destruct (apikey_header_attached (Scenario.client "k3y" "" "")
              (Scenario.get "http://h/rest/foo"))
    as (request' & Hattach & _ & _ & Hnamed);
    try reflexivity; try discriminate.
  { split; reflexivity. }
  destruct Hnamed as [Hget Hothers]; [discriminate|].
  exists request'. split; [exact Hattach|]. split; [exact Hget|].
  rewrite Hothers; [reflexivity | vm_compute; discriminate].
Defined.

(** ** What the session keeps *)

Section Preserved.

Context `{GoRuntime}.

(** A property of the client struct that credential extraction keeps. *)
Variable P : HTTPClient -> Prop.
Hypothesis P_detect : forall c response, P c -> P (detectClientID c response).
Hypothesis P_scan :
  forall c cookies c', P c -> scanCookies c cookies = Some c' -> P c'.

Lemma calls_preserve (fuel : nat) :
  (forall request m,
     P (self m) -> post (fun m' => P (self m')) (handleRequest fuel request m))
  /\ (forall m,
        P (self m) -> post (fun m' => P (self m')) (getCidAndCsrf fuel m)).
Proof.
  induction fuel as [|fuel [IHh IHg]]; [split; intros; exact I|].
  split.
  - intros request m HP.
    destruct (attachCredentials (self m) request) as [request'|] eqn:Hattach.
    2:{ cbn [handleRequest]. unfold bind, this. rewrite Hattach. exact HP. }
    destruct (remote m (length (wire m))) as [msg|response] eqn:Hreply.
    { cbn [handleRequest]. unfold bind, this. rewrite Hattach.
      cbn. rewrite Hreply. exact HP. }
    destruct (extractCredentials (self m) response) as [c'|] eqn:Hextract.
    2:{ cbn [handleRequest]. unfold bind, this. rewrite Hattach.
        cbn. rewrite Hreply. unfold extractCredentials in Hextract.
        cbn. rewrite Hextract. cbn. apply P_detect. exact HP. }
    rewrite (handleRequest_answered fuel _ _ _ _ _ Hattach Hreply Hextract).
    assert (HP' : P c').
    { unfold extractCredentials in Hextract.
      eapply P_scan; [|exact Hextract]. apply P_detect. exact HP. }
    cbv zeta.
    repeat match goal with
      | |- context [if ?b then _ else _] => destruct b
      | |- context [match ?x with _ => _ end] => destruct x
      end; cbn; try exact HP'.
    unfold bind.
    pose proof (IHg (with_self c' (sent request' m)) HP') as Hboot.
    destruct (getCidAndCsrf fuel _); cbn in *; auto.
  - intros m HP. cbn [getCidAndCsrf]. unfold bind, count_bootstrap, this.
    cbn [self entered].
    destruct (GoString.nonempty (apikey (self m))); [exact HP|].
    unfold http_NewRequest.
    destruct (url_Parse (endpoint (self m))); [exact HP|].
    match goal with |- context [handleRequest fuel ?r ?x] =>
      pose proof (IHh r x HP) as Hcall;
      destruct (handleRequest fuel r x) as [r0 m'|m'|]
    end; cbn in *; try assumption.
    destruct (snd r0); [exact Hcall|].
    repeat match goal with
      | |- context [if ?b then _ else _] => destruct b
      end; exact Hcall.
Qed.

Hypothesis P_init : forall c, P c -> P (set_initDone true c).

Lemma _HTTPRequest_preserves (fuel : nat) (method : Verb) (url : string)
    (body data : option string) (m : Machine) :
  P (self m) ->
  post (fun m' => P (self m')) (_HTTPRequest fuel method url body data m).
Proof.
  intros HP. unfold _HTTPRequest. unfold bind at 1. unfold this at 1.
  unfold bind at 1.
  set (lazy := if negb (initDone (self m)) then _ else _).
  assert (Hlazy : post (fun m1 => P (self m1)) (lazy m)).
  { subst lazy. destruct (initDone (self m)); cbn [negb]; [exact HP|].
    unfold bind. pose proof (proj2 (calls_preserve fuel) m HP) as Hboot.
    destruct (getCidAndCsrf fuel m) as [[e|] m1|m1|]; cbn in *; auto. }
  destruct (lazy m) as [[] m1|m1|]; cbn in Hlazy; try assumption.
  unfold bind at 1. unfold this at 1. unfold http_NewRequest.
  destruct (url_Parse _); [exact Hlazy|].
  unfold bind.
  match goal with |- context [handleRequest fuel ?r m1] =>
    pose proof (proj1 (calls_preserve fuel) r m1 Hlazy) as Hcall;
    destruct (handleRequest fuel r m1) as [[res err] m2|m2|]
  end; cbn in *; try assumption.
  destruct err, res; cbn; try exact Hcall.
  repeat match goal with
    | |- context [if ?b then _ else _] => destruct b
    | |- context [match ?x with _ => _ end] => destruct x
    end; exact Hcall.
Qed.

End Preserved.

Section Session.

Context `{GoRuntime}.

(** X7. A client ID, once known, is never forgotten: whatever the server
    answers and however the call ends, a request, a bootstrap or a verb
    leaves a client that had an ID with an ID. *)
Theorem client_id_never_forgotten (fuel : nat) (method : Verb) (url : string)
    (body data : option string) (request : Request) (m : Machine) :
  GetClientID (self m) <> "" ->
  post (fun m' => GetClientID (self m') <> "") (handleRequest fuel request m)
  /\ post (fun m' => GetClientID (self m') <> "") (getCidAndCsrf fuel m)
  /\ post (fun m' => GetClientID (self m') <> "")
       (_HTTPRequest fuel method url body data m).
Proof.
  intros Hid.
  assert (Hdetect : forall c response,
            id c <> "" -> id (detectClientID c response) <> "").
  { intros c response Hc. unfold detectClientID.
    destruct (GoString.nonempty _) eqn:Hn; cbn [andb]; [|exact Hc].
    destruct (negb _); [|exact Hc]. cbn. apply nonempty_true. exact Hn. }
  assert (Hscan : forall c cookies c',
            id c <> "" -> scanCookies c cookies = Some c' -> id c' <> "").
  { intros c cookies c' Hc Hs.
    apply scanCookies_static in Hs as (_ & _ & _ & _ & ->). exact Hc. }
  split; [|split].
  - apply (calls_preserve _ Hdetect Hscan fuel). exact Hid.
  - apply (calls_preserve _ Hdetect Hscan fuel). exact Hid.
  - apply (_HTTPRequest_preserves _ Hdetect Hscan); [|exact Hid].
    intros c Hc. exact Hc.
Qed.

(** X8. No verb touches the configuration: the endpoint, the API key, the
    configuration record, the user name, the password and the logger
    settings are after a call what they were before it, and a client that
    was initialised stays so. *)
Theorem configuration_untouched (fuel : nat) (method : Verb) (url : string)
    (body data : option string) (m : Machine) :
  post (fun m' =>
          endpoint (self m') = endpoint (self m)
          /\ apikey (self m') = apikey (self m)
          /\ conf (self m') = conf (self m)
          /\ username (self m') = username (self m)
          /\ password (self m') = password (self m)
          /\ LoggerLevel (self m') = LoggerLevel (self m)
          /\ LoggerPrefix (self m') = LoggerPrefix (self m)
          /\ (initDone (self m) = true -> initDone (self m') = true))
    (_HTTPRequest fuel method url body data m).
Proof.
  apply (_HTTPRequest_preserves
           (fun c =>
              endpoint c = endpoint (self m) /\ apikey c = apikey (self m)
              /\ conf c = conf (self m) /\ username c = username (self m)
              /\ password c = password (self m)
              /\ LoggerLevel c = LoggerLevel (self m)
              /\ LoggerPrefix c = LoggerPrefix (self m)
              /\ (initDone (self m) = true -> initDone c = true))).
  - intros c response Hc. unfold detectClientID.
    destruct (_ && _); exact Hc.
  - intros c cookies. induction cookies as [|item rest IH]; cbn.
    + intros c' Hc [= <-]. exact Hc.
    + intros c' Hc. destruct (GoString.nonempty (id c)); [|auto].
      destruct (GoString.slice_to (id c) 5); [|discriminate].
      destruct (String.eqb _ _); [|auto].
      intros [= <-]. exact Hc.
  - intros c Hc. cbn. intuition.
  - intuition.
Qed.

End Session.

Lemma client_id_never_forgotten_witness :
  exists r m',
    _HTTPRequest 2 GET "/foo" None None
      (Scenario.machine (Scenario.client "" "device-1" "")
         (Scenario.always (Scenario.login 200 "200 OK"))) = Returns r m'
    /\ GetClientID (self m') <> "".
Proof.
  destruct (_HTTPRequest 2 GET "/foo" None None
              (Scenario.machine (Scenario.client "" "device-1" "")
                 (Scenario.always (Scenario.login 200 "200 OK"))))
    as [r m'| |] eqn:Hrun; try (vm_compute in Hrun; discriminate).
  exists r, m'. split; [reflexivity|].
  destruct (client_id_never_forgotten 2 GET "/foo" None None
              (Scenario.get "http://h")
              (Scenario.machine (Scenario.client "" "device-1" "")
                 (Scenario.always (Scenario.login 200 "200 OK"))))
    as (_ & _ & Hverb); [discriminate|].
  rewrite Hrun in Hverb. exact Hverb.
Defined.

(** ** One verb, one request *)

Section OneRequest.

Context `{GoRuntime}.

(** A request whose answer is not a 403 goes out alone. *)
Lemma handleRequest_single (fuel : nat) (request request' : Request)
    (m : Machine) :
  attachCredentials (self m) request = Some request' ->
  (forall response,
     remote m (length (wire m)) = Answer response ->
     StatusCode response <> 403) ->
  ends (fun m' => bootstraps m' = bootstraps m
                  /\ wire m' = (wire m ++ [request'])%list)
    (handleRequest (S fuel) request m).
Proof.
  intros Hattach Hcode.
  destruct (remote m (length (wire m))) as [msg|response] eqn:Hreply.
  { cbn [handleRequest]. unfold bind, this. rewrite Hattach.
    cbn. rewrite Hreply. cbn. auto. }
  destruct (extractCredentials (self m) response) as [c'|] eqn:Hextract.
  2:{ cbn [handleRequest]. unfold bind, this. rewrite Hattach.
      cbn. rewrite Hreply. unfold extractCredentials in Hextract.
      cbn. rewrite Hextract. cbn. auto. }
  rewrite (handleRequest_answered fuel _ _ _ _ _ Hattach Hreply Hextract).
  destruct (Z.eqb_spec (StatusCode response) 403) as [Hforbidden|_].
  { exfalso. exact (Hcode response eq_refl Hforbidden). }
  cbv zeta.
  repeat match goal with
    | |- context [if ?b then _ else _] => destruct b
    | |- context [match ?x with _ => _ end] => destruct x
    end; cbn; auto.
Qed.

(** [_HTTPRequest] on an initialised client skips the bootstrap. *)
Lemma _HTTPRequest_initialised (fuel : nat) (method : Verb) (url : string)
    (body data : option string) (m : Machine) :
  initDone (self m) = true ->
  _HTTPRequest fuel method url body data m =
    match url_Parse (formatURL (self m) url) with
    | Some e => Returns (None, Some e, data) m
    | None =>
        match handleRequest fuel
                {| Method := Verb_name method; URL := formatURL (self m) url;
                   ReqBody := body; ReqHeader := ∅; BasicAuth := None |} m with
        | Returns (res, Some e) m' => Returns (res, Some e, data) m'
        | Returns (None, None) m' => Panics m'
        | Returns (Some res, None) m' =>
            if negb (StatusCode res =? 200)
            then Returns (Some res, errors_New (Status res), data) m'
            else match data with
                 | Some _ =>
                     Returns (Some (snd (ResponseToBArray res)), None,
                              Some (fst (ResponseToBArray res))) m'
                 | None => Returns (Some res, None, None) m'
                 end
        | Panics m' => Panics m'
        | OutOfFuel => OutOfFuel
        end
    end.
Proof.
  intros Hinit. unfold _HTTPRequest. unfold bind at 1. unfold this at 1.
  rewrite Hinit. cbn [negb]. unfold bind at 1. cbn [ret].
  unfold bind at 1. unfold this at 1. unfold http_NewRequest.
  destruct (url_Parse _); [reflexivity|].
  unfold bind. destruct (handleRequest fuel _ m) as [[res [e|]] m'|m'|];
    try reflexivity.
  - destruct res; reflexivity.
  - destruct res as [res|]; [|reflexivity].
    destruct (negb _); [reflexivity|].
    destruct data; [|reflexivity].
    destruct (ResponseToBArray res); reflexivity.
Qed.

(** What [_HTTPRequest] puts on the wire when the client is initialised
    and the answer is not a 403. *)
Lemma _HTTPRequest_sends_one (fuel : nat) (method : Verb)
    (url : string) (body data : option string) (m : Machine) :
  initDone (self m) = true ->
  url_Parse (formatURL (self m) url) = None ->
  csrf (self m) = "" \/ (5 <= String.length (id (self m)))%nat ->
  (forall response,
     remote m (length (wire m)) = Answer response ->
     StatusCode response <> 403) ->
  ends (fun m' =>
          bootstraps m' = bootstraps m
          /\ exists request',
               wire m' = (wire m ++ [request'])%list
               /\ Method request' = Verb_name method
               /\ URL request' = formatURL (self m) url
               /\ ReqBody request' = body)
    (_HTTPRequest (S fuel) method url body data m).
Proof.
  intros Hinit Hurl Hsafe Hcode.
  rewrite (_HTTPRequest_initialised _ _ _ _ _ _ Hinit), Hurl.
  set (request := {| Method := Verb_name method |}).
  destruct (attachCredentials_succeeds (self m) request Hsafe)
    as [request' Hattach].
  pose proof (handleRequest_single fuel request request' m Hattach Hcode)
    as Hcall.
  destruct (attachCredentials_request_fields _ _ _ Hattach) as (Hm & Hu & Hb).
  assert (Hgoal : forall m', bootstraps m' = bootstraps m
                             /\ wire m' = (wire m ++ [request'])%list ->
            bootstraps m' = bootstraps m
            /\ exists request'0,
                 wire m' = (wire m ++ [request'0])%list
                 /\ Method request'0 = Verb_name method
                 /\ URL request'0 = formatURL (self m) url
                 /\ ReqBody request'0 = body).
  { intros m' [Hboot Hwire]. split; [exact Hboot|]. exists request'. auto. }
  destruct (handleRequest (S fuel) request m) as [[res [e|]] m'|m'|];
    cbn in Hcall; try contradiction; try (apply Hgoal; exact Hcall).
  - destruct res; cbn; apply Hgoal; exact Hcall.
  - destruct res as [res|]; cbn; [|apply Hgoal; exact Hcall].
    destruct (negb _); cbn; [apply Hgoal; exact Hcall|].
    destruct data; cbn; apply Hgoal; exact Hcall.
Qed.

(** X9. An initialised client whose request is answered with anything but
    a 403 sends that one request and nothing else, whichever low-level
    verb is called: no bootstrap is entered, and the request on the wire
    has the method of the verb, the URL joined from endpoint, prefix and
    path, and the body given ([HTTPGet] and [HTTPDelete] send none). *)
Theorem initialised_client_sends_one_request (fuel : nat) (url body : string)
    (data : option string) (m : Machine) :
  initDone (self m) = true ->
  url_Parse (formatURL (self m) url) = None ->
  csrf (self m) = "" \/ (5 <= String.length (id (self m)))%nat ->
  (forall response,
     remote m (length (wire m)) = Answer response ->
     StatusCode response <> 403) ->
  let one (method : string) (sent_body : option string) (m' : Machine) :=
    bootstraps m' = bootstraps m
    /\ exists request',
         wire m' = (wire m ++ [request'])%list
         /\ Method request' = method
         /\ URL request' = formatURL (self m) url
         /\ ReqBody request' = sent_body in
  ends (one "GET" None) (HTTPGet (S fuel) url data m)
  /\ ends (one "POST" (Some body)) (HTTPPost (S fuel) url body m)
  /\ ends (one "PUT" (Some body)) (HTTPPut (S fuel) url body m)
  /\ ends (one "DELETE" None) (HTTPDelete (S fuel) url m).
Proof.
  intros Hinit Hurl Hsafe Hcode one.
  assert (Hwrap : forall A method reqbody buffer
                    (f : option Response * error * option string -> A),
            ends (one (Verb_name method) reqbody)
              ((r <- _HTTPRequest (S fuel) method url reqbody buffer ;;
                ret (f r)) m)).
  { intros A method reqbody buffer f. unfold bind.
    pose proof (_HTTPRequest_sends_one fuel method url reqbody buffer m
                  Hinit Hurl Hsafe Hcode) as Hone.
    destruct (_HTTPRequest (S fuel) method url reqbody buffer m);
      exact Hone. }
  split; [|split; [|split]].
  - exact (Hwrap _ GET None data (fun r => (snd (fst r), snd r))).
  - exact (Hwrap _ POST (Some body) None (fun r => snd (fst r))).
  - exact (Hwrap _ PUT (Some body) None (fun r => snd (fst r))).
  - exact (Hwrap _ DELETE None None (fun r => snd (fst r))).
Qed.

(** X10. A failure before any answer leaves the session as it was.  When
    the joined URL does not parse, the verb returns the parse error and
    nothing is sent.  When the transport fails, the verb returns the
    transport's error, the request is the only thing sent, and the client
    struct is untouched.  In both cases the caller's buffer is as it
    was. *)
Theorem failure_before_answer (fuel : nat) (method : Verb) (url : string)
    (body data : option string) (m : Machine) :
  initDone (self m) = true ->
  (forall e, url_Parse (formatURL (self m) url) = Some e ->
     _HTTPRequest fuel method url body data m = Returns (None, Some e, data) m)
  /\ (url_Parse (formatURL (self m) url) = None ->
      forall request' msg,
        attachCredentials (self m)
          {| Method := Verb_name method; URL := formatURL (self m) url;
             ReqBody := body; ReqHeader := ∅; BasicAuth := None |}
          = Some request' ->
        remote m (length (wire m)) = TransportError msg ->
        _HTTPRequest (S fuel) method url body data m
        = Returns (None, Some msg, data) (sent request' m)).
Proof.
  intros Hinit. split.
  - intros e He. rewrite (_HTTPRequest_initialised _ _ _ _ _ _ Hinit), He.
    reflexivity.
  - intros Hurl request' msg Hattach Hreply.
    rewrite (_HTTPRequest_initialised _ _ _ _ _ _ Hinit), Hurl.
    cbn [handleRequest]. unfold bind at 1. unfold this at 1.
    unfold bind at 1. rewrite Hattach. cbn [must ret].
    unfold bind at 1. unfold Do at 1. rewrite Hreply. reflexivity.
Qed.

End OneRequest.

Lemma initialised_client_sends_one_request_witness :
  exists r m',
    HTTPPost 1 "/folders" "{}"
      (Scenario.machine
         (set_initDone true (Scenario.client "" "abc123" "tok1"))
         (Scenario.always (Scenario.failure "oops"))) = Returns r m'
    /\ bootstraps m' = 0%nat
    /\ exists request',
         wire m' = [request'] /\ Method request' = "POST"
         /\ URL request' = "http://h/rest/folders"
         /\ ReqBody request' = Some "{}".
Proof.
  set (m := Scenario.machine
              (set_initDone true (Scenario.client "" "abc123" "tok1"))
              (Scenario.always (Scenario.failure "oops"))).
  destruct (initialised_client_sends_one_request 0 "/folders" "{}" None m)
    as (_ & Hpost & _).
  - reflexivity.
  - reflexivity.
  - right. vm_compute. lia.
  - intros response [= <-]. discriminate.
  - destruct (HTTPPost 1 "/folders" "{}" m) as [r m'| |] eqn:Hrun;
      try (vm_compute in Hrun; discriminate).
    exists r, m'. split; [reflexivity|]. exact Hpost.
Defined.

Lemma failure_before_answer_witness :
  _HTTPRequest 1 GET "/foo" None (Some "stale")
    (Scenario.machine (set_initDone true (Scenario.client "k3y" "" ""))
       (fun _ => TransportError "dial tcp: connection refused"))
  = Returns (None, Some "dial tcp: connection refused", Some "stale")
      (sent (Request_Header_Set (Scenario.get "http://h/rest/foo")
               "X-API-Key" "k3y")
         (Scenario.machine (set_initDone true (Scenario.client "k3y" "" ""))
            (fun _ => TransportError "dial tcp: connection refused"))).
Proof.
  apply (failure_before_answer 0 GET "/foo" None (Some "stale")
           (Scenario.machine (set_initDone true (Scenario.client "k3y" "" ""))
              (fun _ => TransportError "dial tcp: connection refused")));
    reflexivity.
Defined.

(** ** A constructed client *)

Section Constructed.

Context `{GoRuntime}.

(** X11. A client that [HTTPNewClient] returns without error is
    initialised and configured as asked; in cookie mode it holds a client
    ID, and a CSRF token unless CSRF is disabled. *)
Theorem constructed_client_holds_credentials (fuel : nat) (baseURL : string)
    (cfg : HTTPClientConfig) (server : nat -> Reply) (m : Machine) :
  HTTPNewClient fuel baseURL cfg server = Returns None m ->
  initDone (self m) = true /\ endpoint (self m) = baseURL
  /\ conf (self m) = cfg /\ apikey (self m) = Apikey cfg
  /\ remote m = server
  /\ (Apikey cfg = "" ->
      GetClientID (self m) <> ""
      /\ (CsrfDisable cfg = true \/ csrf (self m) <> "")).
Proof.
  unfold HTTPNewClient, bind.
  set (fresh := {| LoggerLevel := LogLevel cfg |}).
  set (start := {| self := fresh |}).
  pose proof (getCidAndCsrf_extends fuel start) as Hext.
  destruct (getCidAndCsrf fuel start) as [[e|] m1|m1|] eqn:Hrun;
    try discriminate.
  destruct Hext as [Hremote _ _ Hkey Hconf Hend _]. cbn in Hremote, Hkey, Hconf, Hend.
  assert (Hcred : Apikey cfg = "" ->
            id (self m1) <> ""
            /\ (CsrfDisable cfg = true \/ csrf (self m1) <> "")).
  { intros Hcookie. destruct fuel as [|fuel]; [discriminate|].
    rewrite getCidAndCsrf_cookie in Hrun by exact Hcookie.
    destruct (url_Parse (endpoint (self start))); [discriminate|].
    destruct (handleRequest fuel _ _) as [r m2|m2|]; try discriminate.
    destruct (snd r); [discriminate|].
    destruct (String.eqb_spec (id (self m2)) "") as [Hid|Hid];
      [discriminate|].
    destruct (CsrfDisable (conf (self m2))) eqn:Hdis; cbn [negb andb] in Hrun.
    - injection Hrun as <-. split; [exact Hid|]. left.
      rewrite <- Hconf. exact Hdis.
    - destruct (String.eqb_spec (csrf (self m2)) "") as [Htok|Htok];
        [discriminate|].
      injection Hrun as <-. split; [exact Hid|]. right. exact Htok. }
  cbn. intros Heq. injection Heq as <-. cbn.
  split; [reflexivity|]. split; [exact Hend|]. split; [exact Hconf|].
  split; [exact Hkey|]. split; [exact Hremote|]. exact Hcred.
Qed.

End Constructed.

Lemma constructed_client_holds_credentials_witness :
  exists m,
    HTTPNewClient 2 "http://h" (Scenario.cfg "")
      (Scenario.always (Scenario.login 200 "200 OK")) = Returns None m
    /\ GetClientID (self m) = "abc123" /\ initDone (self m) = true.
Proof.
  destruct (HTTPNewClient 2 "http://h" (Scenario.cfg "")
              (Scenario.always (Scenario.login 200 "200 OK")))
    as [[e|] m| |] eqn:Hnew; try (vm_compute in Hnew; discriminate).
  exists m. split; [reflexivity|].
  destruct (constructed_client_holds_credentials _ _ _ _ _ Hnew)
    as (Hinit & _).
  split; [|exact Hinit].
  vm_compute in Hnew. injection Hnew as <-. reflexivity.
Defined.

(** ** Extraction, again *)

(** The scan depends on the client through its ID only, and what it does
    to one client it does to any other of the same ID. *)
Lemma scanCookies_uniform (c c' : HTTPClient) (cookies : list Cookie) :
  scanCookies c cookies = Some c' ->
  (c' = c /\ forall x, id x = id c -> scanCookies x cookies = Some x)
  \/ (exists v, c' = set_csrf v c
                /\ forall x, id x = id c ->
                     scanCookies x cookies = Some (set_csrf v x)).
Proof.
  induction cookies as [|item rest IH]; cbn.
  - intros [= <-]. left. auto.
  - destruct (GoString.nonempty (id c)) eqn:Hne.
    + destruct (GoString.slice_to (id c) 5) as [prefix|] eqn:Hslice;
        [|discriminate].
      destruct (String.eqb (Name item) _) eqn:Hname.
      * intros [= <-]. right. exists (Value item). split; [reflexivity|].
        intros x Hx. rewrite Hx, Hne, Hslice, Hname. reflexivity.
      * intros Hrest. destruct (IH Hrest) as [[-> Hall]|(v & -> & Hall)].
        -- left. split; [reflexivity|]. intros x Hx.
           rewrite Hx, Hne, Hslice, Hname. auto.
        -- right. exists v. split; [reflexivity|]. intros x Hx.
           rewrite Hx, Hne, Hslice, Hname. auto.
    + intros Hrest. destruct (IH Hrest) as [[-> Hall]|(v & -> & Hall)].
      * left. split; [reflexivity|]. intros x Hx. rewrite Hx, Hne. auto.
      * right. exists v. split; [reflexivity|]. intros x Hx.
        rewrite Hx, Hne. auto.
Qed.

(** X12. Credential extraction is idempotent: a response seen a second
    time changes nothing. *)
Theorem extractCredentials_idempotent (c c' : HTTPClient) (response : Response) :
  extractCredentials c response = Some c' ->
  extractCredentials c' response = Some c'.
Proof.
  unfold extractCredentials. intros Hscan.
  pose proof (scanCookies_static _ _ _ Hscan) as (_ & Hconf & _ & _ & Hid).
  destruct (detectClientID_static c response) as (_ & Hconf' & _).
  assert (Hdetect : detectClientID c' response = c').
  { unfold detectClientID. rewrite Hconf, Hconf'.
    destruct (GoString.nonempty _) eqn:Hn; cbn [andb]; [|reflexivity].
    replace (String.eqb (id c') _) with true; [reflexivity|].
    symmetry. apply String.eqb_eq. rewrite Hid.
    unfold detectClientID. rewrite Hn. cbn [andb].
    destruct (String.eqb_spec (id c)
                (Header.Get (RespHeader response)
                   (HeaderClientKeyName (conf c)))); cbn; auto. }
  rewrite Hdetect.
  destruct (scanCookies_uniform _ _ _ Hscan) as [[-> Hall]|(v & -> & Hall)].
  - apply Hall. reflexivity.
  - rewrite (Hall (set_csrf v (detectClientID c response)) eq_refl).
    reflexivity.
Qed.

Lemma extractCredentials_idempotent_witness :
  extractCredentials (Scenario.client "" "abc123" "tok1")
    (Scenario.login 200 "200 OK")
  = Some (Scenario.client "" "abc123" "tok1").
Proof.
  apply (extractCredentials_idempotent (Scenario.client "" "" "")).
  reflexivity.
Defined.

(** ** The body of the response a verb hands back *)

Section Bodies.

Context `{GoRuntime}.

Lemma _HTTPRequest_without_buffer (fuel : nat) (method : Verb) (url : string)
    (body : option string) (m m' : Machine) (res : option Response)
    (data' : option string) :
  _HTTPRequest fuel method url body None m = Returns (res, None, data') m' ->
  data' = None
  /\ exists response n,
       res = Some response /\ remote m n = Answer response
       /\ StatusCode response = 200.
Proof.
  unfold _HTTPRequest. unfold bind at 1. unfold this at 1.
  unfold bind at 1.
  set (lazy := if negb (initDone (self m)) then _ else _).
  assert (Hlazy : post (fun m1 => remote m1 = remote m) (lazy m)).
  { subst lazy. destruct (initDone (self m)); cbn; [reflexivity|].
    unfold bind. pose proof (getCidAndCsrf_extends fuel m) as Hext.
    destruct (getCidAndCsrf fuel m) as [[e|] m1| |]; cbn in *;
      try exact I; apply Hext. }
  destruct (lazy m) as [[] m1| |]; try discriminate. cbn in Hlazy.
  unfold bind at 1. unfold this at 1. unfold http_NewRequest.
  destruct (url_Parse _) as [e|]; [discriminate|].
  unfold bind.
  destruct (handleRequest fuel _ m1) as [[res1 [e|]] m2| |] eqn:Hcall;
    try discriminate.
  { destruct res1; discriminate. }
  apply handleRequest_success in Hcall as (response & -> & Hok & Hreply).
  rewrite Hok. cbn [Z.eqb negb]. unfold ret.
  intros Heq. injection Heq; intros; subst.
  split; [reflexivity|]. exists response, (length (wire m1)).
  rewrite <- Hlazy. auto.
Qed.

(** X13. The verbs that take no buffer and return the response return it
    as the server sent it: on success the response is one of the server's
    replies, with status 200 and its body in the state it arrived in, so
    that a caller who gets it unread can read all of it. *)
Theorem response_handed_back_unread (fuel : nat) (url body : string)
    (m m' : Machine) (res : option Response) :
  HTTPPostWithRes fuel url body m = Returns (res, None) m'
  \/ HTTPPutWithRes fuel url body m = Returns (res, None) m'
  \/ HTTPDeleteWithRes fuel url m = Returns (res, None) m'
  \/ (exists data', HTTPGetWithRes fuel url None m = Returns (res, None, data') m') ->
  exists response n,
    res = Some response /\ remote m n = Answer response
    /\ StatusCode response = 200
    /\ (drained (RespBody response) = false ->
        fst (ResponseToBArray response) = payload (RespBody response)).
Proof.
  assert (Hwrap : forall method reqbody,
            (r <- _HTTPRequest fuel method url reqbody None ;; ret (fst r)) m
            = Returns (res, None) m' ->
            exists data',
              _HTTPRequest fuel method url reqbody None m
              = Returns (res, None, data') m').
  { intros method reqbody. unfold bind, ret.
    destruct (_HTTPRequest fuel method url reqbody None m)
      as [[[res1 err1] data1] m1| |]; try discriminate.
    cbn. intros Heq. injection Heq; intros; subst. eauto. }
  intros [Hrun|[Hrun|[Hrun|Hrun]]];
    [apply Hwrap in Hrun | apply Hwrap in Hrun | apply Hwrap in Hrun |];
    destruct Hrun as [data' Hrun];
    apply _HTTPRequest_without_buffer in Hrun
      as (_ & response & n & -> & Hreply & Hok);
    exists response, n; repeat split; try assumption;
    apply ResponseToBArray_fresh.
Qed.

(** X14. [HTTPGetWithRes] given a buffer hands back a response whose body
    is spent: the bytes are in the buffer, and reading the response again
    gives nothing. *)
Theorem response_with_buffer_is_spent (fuel : nat) (url buf : string)
    (m m' : Machine) (res : option Response) (data' : option string) :
  HTTPGetWithRes fuel url (Some buf) m = Returns (res, None, data') m' ->
  exists spent,
    res = Some spent /\ drained (RespBody spent) = true
    /\ fst (ResponseToBArray spent) = "".
Proof.
  unfold HTTPGetWithRes. intros Hrun.
  pose proof (_HTTPRequest_buffer fuel GET url None buf m m' res None data'
                Hrun) as Hbuf.
  cbv beta iota in Hbuf.
  destruct Hbuf as (response & n & _ & _ & -> & _).
  eexists. split; [reflexivity|].
  unfold ResponseToBArray.
  destruct (drained (RespBody response)) eqn:E; cbn; rewrite ?E; auto.
Qed.

End Bodies.

Lemma response_handed_back_unread_witness :
  exists response m',
    HTTPPostWithRes 1 "/folders" "{}"
      (Scenario.machine (Scenario.client "k3y" "" "")
         (Scenario.always (Scenario.login 200 "200 OK")))
    = Returns (Some response, None) m'
    /\ fst (ResponseToBArray response) = "[]".
Proof.
  set (m := Scenario.machine (Scenario.client "k3y" "" "")
              (Scenario.always (Scenario.login 200 "200 OK"))).
  destruct (HTTPPostWithRes 1 "/folders" "{}" m) as [[res [e|]] m'| |]
    eqn:Hrun; try (vm_compute in Hrun; discriminate).
  destruct (response_handed_back_unread 1 "/folders" "{}" m m' res
              (or_introl Hrun))
    as (response & n & -> & Hreply & _ & Hread).
  injection Hreply as <-.
  exists (Scenario.login 200 "200 OK"), m'. split; [reflexivity|].
  apply Hread. reflexivity.
Defined.

Lemma response_with_buffer_is_spent_witness :
  exists spent bytes m',
    HTTPGetWithRes 1 "/folders" (Some "")
      (Scenario.machine (Scenario.client "k3y" "" "")
         (Scenario.always (Scenario.login 200 "200 OK")))
    = Returns (Some spent, None, Some bytes) m'
    /\ bytes = "[]" /\ fst (ResponseToBArray spent) = "".
Proof.
  set (m := Scenario.machine (Scenario.client "k3y" "" "")
              (Scenario.always (Scenario.login 200 "200 OK"))).
  destruct (HTTPGetWithRes 1 "/folders" (Some "") m)
    as [[[res [e|]] data'] m'| |] eqn:Hrun;
    try (vm_compute in Hrun; discriminate).
  destruct (response_with_buffer_is_spent 1 "/folders" "" m m' res data' Hrun)
    as (spent & -> & _ & Hspent).
  destruct data' as [bytes|]; [|vm_compute in Hrun; discriminate].
  exists spent, bytes, m'. split; [reflexivity|]. split; [|exact Hspent].
  vm_compute in Hrun. injection Hrun; intros; subst. reflexivity.
Defined.

(** ** The high-level verbs *)

Section HighLevel.

Context `{GoRuntime} `{GoJSON}.



(** X16. An input that cannot be serialised stops the verb at once: the
    marshalling error is returned, nothing is sent, no bootstrap is
    attempted even on a client that is not initialised, and [out] is
    left as it was. *)
Theorem marshal_failure_sends_nothing (fuel : nat) (url : string)
    (v : GoValue) (b e : string) (out : option GoValue) (m : Machine) :
  json_Marshal v = (b, Some e) ->
  Post fuel url (Some v) out m = Returns (Some e, out) m
  /\ Put fuel url (Some v) out m = Returns (Some e, out) m.
Proof.
  intros Hm. unfold Post, Put, _Request.
  rewrite Hm. split; reflexivity.
Qed.

(** X17. Where the result of a high-level verb comes from.  The error is
    the marshalling error (and then nothing was sent), or the error of the
    low-level request, or, after an answer with status 200, the error of
    decoding the body into [out] (none when [out] is nil).  The error
    "HTTP status ..." of [_Request] is never returned: the low-level
    request has already turned every other status into an error. *)
Theorem high_level_result (fuel : nat) (method : Verb) (url : string)
    (input out : option GoValue) (m m' : Machine) (err : error)
    (out' : option GoValue) :
  _Request fuel method url input out m = Returns (err, out') m' ->
  (exists v b e,
     input = Some v /\ json_Marshal v = (b, Some e)
     /\ err = Some e /\ out' = out /\ m' = m)
  \/ (exists body res e d,
        _HTTPRequest fuel method url body None m = Returns (res, Some e, d) m'
        /\ err = Some e /\ out' = out)
  \/ (exists response n,
        remote m n = Answer response /\ StatusCode response = 200
        /\ match out with
           | None => err = None /\ out' = None
           | Some target =>
               (Some (fst (json_Unmarshal_into
                             (fst (ResponseToBArray response)) target)),
                snd (json_Unmarshal_into
                       (fst (ResponseToBArray response)) target))
               = (out', err)
           end).
Proof.
  unfold _Request.
  assert (Hfinish : forall body,
            (r <- _HTTPRequest fuel method url body None ;;
             match r with
             | (_, Some e, _) => ret (Some e, out)
             | (None, None, _) => panic
             | (Some res, None, _) =>
                 if negb (StatusCode res =? 200) then
                   ret (Some ("HTTP status " +:+ Status res), out)
                 else
                   match out with
                   | None => ret (None, None)
                   | Some target =>
                       let '(bytes, _) := ResponseToBArray res in
                       let '(target', err) :=
                         json_Unmarshal_into bytes target in
                       ret (err, Some target')
                   end
             end) m = Returns (err, out') m' ->
            (exists body res e d,
               _HTTPRequest fuel method url body None m
               = Returns (res, Some e, d) m'
               /\ err = Some e /\ out' = out)
            \/ (exists response n,
                  remote m n = Answer response /\ StatusCode response = 200
                  /\ match out with
                     | None => err = None /\ out' = None
                     | Some target =>
                         (Some (fst (json_Unmarshal_into
                                       (fst (ResponseToBArray response))
                                       target)),
                          snd (json_Unmarshal_into
                                 (fst (ResponseToBArray response)) target))
                         = (out', err)
                     end)).
  { intros body Hres. unfold bind in Hres.
    destruct (_HTTPRequest fuel method url body None m)
      as [[[res [e|]] d] m1|m1|] eqn:Hrun; try discriminate.
    - left. exists body, res, e, d.
      destruct res; unfold ret in Hres; injection Hres; intros; subst; auto.
    - apply _HTTPRequest_without_buffer in Hrun
        as (Hd & response & n & Hres' & Hreply & Hok).
      subst res d. rewrite Hok in Hres. cbn [Z.eqb negb] in Hres.
      right. exists response, n.
      split; [exact Hreply|]. split; [exact Hok|].
      destruct out as [target|].
      + destruct (ResponseToBArray response) as [bytes response'].
        cbn [fst]. destruct (json_Unmarshal_into bytes target).
        unfold ret in Hres. injection Hres; intros; subst. reflexivity.
      + unfold ret in Hres. injection Hres; intros; subst. auto. }
  destruct input as [v|].
  - destruct (json_Marshal v) as [b [e|]] eqn:Hm.
    + unfold ret. intros Heq. injection Heq; intros; subst.
      left. exists v, b, e. auto.
    + intros Hrun. right. apply (Hfinish _ Hrun).
  - intros Hrun. right. apply (Hfinish _ Hrun).
Qed.


End HighLevel.


Lemma marshal_failure_sends_nothing_witness :
  Post (H0 := PlainJSON.codec) 3 "/folders" (Some PlainJSON.VChan) None
    (Scenario.machine (Scenario.client "" "" "")
       (Scenario.always Scenario.forbidden))
  = Returns (Some "json: unsupported type: chan int", None)
      (Scenario.machine (Scenario.client "" "" "")
         (Scenario.always Scenario.forbidden)).
Proof.
  apply (marshal_failure_sends_nothing (H0 := PlainJSON.codec)
           3 "/folders" PlainJSON.VChan ""
           "json: unsupported type: chan int" None
           (Scenario.machine (Scenario.client "" "" "")
              (Scenario.always Scenario.forbidden))).
  reflexivity.
Defined.

Lemma high_level_result_witness :
  exists m',
    Get (H0 := PlainJSON.codec) 1 "/ready" (Some (PlainJSON.VBool false))
      (Scenario.machine (set_initDone true (Scenario.client "k3y" "" ""))
         (Scenario.always PlainJSON.truth))
    = Returns (None, Some (PlainJSON.VBool true)) m'.
Proof.
  set (m := Scenario.machine (set_initDone true (Scenario.client "k3y" "" ""))
              (Scenario.always PlainJSON.truth)).
  destruct (Get (H0 := PlainJSON.codec) 1 "/ready" (Some (PlainJSON.VBool false)) m)
    as [[err out'] m'| |] eqn:Hrun; try (vm_compute in Hrun; discriminate).
  exists m'.
  destruct (high_level_result (H0 := PlainJSON.codec) 1 GET "/ready" None
              (Some (PlainJSON.VBool false)) m m' err out' Hrun)
    as [(v & _ & _ & Hin & _)|[(body & res & e & d & _ & -> & _)
                              |(response & n & Hreply & _ & Hdecode)]].
  - discriminate.
  - vm_compute in Hrun. discriminate.
  - injection Hreply as <-. cbn in Hdecode.
    injection Hdecode as <- <-. reflexivity.
Defined.


(** ** The log level *)

Lemma to_lower_to_upper (b : ascii) :
  Header.to_lower (Header.to_upper b) = Header.to_lower b.
Proof. destruct b as [[] [] [] [] [] [] [] []]; reflexivity. Qed.

Lemma to_lower_to_lower (b : ascii) :
  Header.to_lower (Header.to_lower b) = Header.to_lower b.
Proof. destruct b as [[] [] [] [] [] [] [] []]; reflexivity. Qed.

Lemma is_ascii_to_upper (b : ascii) :
  GoCaseOps.is_ascii (Header.to_upper b) = GoCaseOps.is_ascii b.
Proof. destruct b as [[] [] [] [] [] [] [] []]; reflexivity. Qed.

Lemma is_ascii_to_lower (b : ascii) :
  GoCaseOps.is_ascii (Header.to_lower b) = GoCaseOps.is_ascii b.
Proof. destruct b as [[] [] [] [] [] [] [] []]; reflexivity. Qed.

Lemma all_ascii_map (f : ascii -> ascii) (s : string) :
  (forall b, GoCaseOps.is_ascii (f b) = GoCaseOps.is_ascii b) ->
  Header.all_bytes GoCaseOps.is_ascii (GoCaseOps.map_bytes f s)
  = Header.all_bytes GoCaseOps.is_ascii s.
Proof.
  intros Hf. induction s as [|b s IH]; [reflexivity|].
  cbn [Header.all_bytes GoCaseOps.map_bytes]. rewrite Hf, IH. reflexivity.
Qed.

Lemma map_bytes_compose (f g h : ascii -> ascii) (s : string) :
  (forall b, f (g b) = h b) ->
  GoCaseOps.map_bytes f (GoCaseOps.map_bytes g s) = GoCaseOps.map_bytes h s.
Proof.
  intros Hfg. induction s as [|b s IH]; [reflexivity|].
  cbn [GoCaseOps.map_bytes]. rewrite Hfg, IH. reflexivity.
Qed.

Section LogLevel.

Context `{GoRuntime} `{GoCase}.

Lemma SetLogLevel_unknown (c : HTTPClient) (lvl : string) :
  strings_ToLower lvl = "unknown" ->
  SetLogLevel c lvl = (c, Some "Unknown level").
Proof.
  intros Hname. unfold SetLogLevel. rewrite Hname. cbn.
  unfold fmt_Errorf. rewrite fmt_Sprintf_plain by reflexivity. reflexivity.
Qed.

(** The name of each of the five levels sets that level. *)
Lemma SetLogLevel_of_name (c : HTTPClient) (lvl : Z) :
  0 <= lvl <= 4 ->
  SetLogLevel c (LogLevelToString lvl) = (set_LoggerLevel lvl c, None).
Proof.
  intros Hrange.
  assert (Hcases : lvl = 0 \/ lvl = 1 \/ lvl = 2 \/ lvl = 3 \/ lvl = 4)
    by lia.
  destruct Hcases as [->|[->|[->|[->| ->]]]];
    unfold SetLogLevel; cbn [LogLevelToString Z.eqb HTTPLogLevelPanic
      HTTPLogLevelError HTTPLogLevelWarning HTTPLogLevelInfo
      HTTPLogLevelDebug Pos.eqb];
    rewrite strings_ToLower_ascii by reflexivity; reflexivity.
Qed.

(** X19. The names of the levels read back as the levels: for each of the
    five levels, setting the level by the name [LogLevelToString] gives it
    sets that level, and [GetLogLevel] then answers that name; the name
    given to any other number, "Unknown", is refused and leaves the client
    as it was. *)
Theorem log_level_round_trip (c : HTTPClient) (lvl : Z) :
  (0 <= lvl <= 4 ->
   SetLogLevel c (LogLevelToString lvl) = (set_LoggerLevel lvl c, None)
   /\ GetLogLevel (fst (SetLogLevel c (LogLevelToString lvl)))
      = LogLevelToString lvl)
  /\ (~ 0 <= lvl <= 4 ->
      LogLevelToString lvl = "Unknown"
      /\ SetLogLevel c (LogLevelToString lvl) = (c, Some "Unknown level")).
Proof.
  split.
  - intros Hrange. rewrite (SetLogLevel_of_name c lvl Hrange).
    split; reflexivity.
  - intros Hout.
    assert (Hname : LogLevelToString lvl = "Unknown").
    { unfold LogLevelToString, HTTPLogLevelPanic, HTTPLogLevelError,
        HTTPLogLevelWarning, HTTPLogLevelInfo, HTTPLogLevelDebug.
      repeat match goal with
        | |- context [Z.eqb lvl ?k] =>
            destruct (Z.eqb_spec lvl k); [lia|]
        end.
      reflexivity. }
    split; [exact Hname|]. rewrite Hname. apply SetLogLevel_unknown.
    rewrite strings_ToLower_ascii by reflexivity. reflexivity.
Qed.

(** X20. [SetLogLevel] either succeeds, and then the level is one of the
    five and nothing else of the client has changed, or fails with
    "Unknown level", and then the client is as it was. *)
Theorem SetLogLevel_outcome (c : HTTPClient) (lvl : string) :
  (snd (SetLogLevel c lvl) = None
   /\ 0 <= LoggerLevel (fst (SetLogLevel c lvl)) <= 4
   /\ fst (SetLogLevel c lvl)
      = set_LoggerLevel (LoggerLevel (fst (SetLogLevel c lvl))) c)
  \/ (snd (SetLogLevel c lvl) = Some "Unknown level"
      /\ fst (SetLogLevel c lvl) = c).
Proof.
  unfold SetLogLevel, HTTPLogLevelPanic, HTTPLogLevelError,
    HTTPLogLevelWarning, HTTPLogLevelInfo, HTTPLogLevelDebug.
  repeat match goal with
    | |- context [if ?b then _ else _] =>
        destruct b;
        [left; cbn; split; [reflexivity|]; split; [lia | reflexivity]|]
    end.
  right. cbn. unfold fmt_Errorf.
  rewrite fmt_Sprintf_plain by reflexivity. auto.
Qed.

(** X21. The level is named without regard to the case of ASCII letters:
    a name and its upper-case and lower-case forms set the same level, or
    are refused alike. *)
Theorem SetLogLevel_ignores_case (c : HTTPClient) (lvl : string) :
  Header.all_bytes GoCaseOps.is_ascii lvl = true ->
  SetLogLevel c (strings_ToUpper lvl) = SetLogLevel c lvl
  /\ SetLogLevel c (strings_ToLower lvl) = SetLogLevel c lvl.
Proof.
  intros Hascii. unfold SetLogLevel.
  rewrite (strings_ToUpper_ascii lvl Hascii).
  rewrite (strings_ToLower_ascii lvl Hascii).
  rewrite !strings_ToLower_ascii
    by (rewrite all_ascii_map;
        [exact Hascii | apply is_ascii_to_upper || apply is_ascii_to_lower]).
  rewrite (map_bytes_compose _ _ Header.to_lower lvl to_lower_to_upper).
  rewrite (map_bytes_compose _ _ Header.to_lower lvl to_lower_to_lower).
  split; reflexivity.
Qed.

Variable Operand : Type.
Variable fmt_Sprintf_with : string -> list Operand -> string.

(** X22. Once a level is set by name, the logger writes the messages of
    that level and of the levels below it, and no others. *)
Theorem log_threshold (c : HTTPClient) (lvl level : Z) (format : string)
    (args : list Operand) :
  0 <= lvl <= 4 ->
  log Operand fmt_Sprintf_with
    (fst (SetLogLevel c (LogLevelToString lvl))) level format args = None
  <-> lvl < level.
Proof.
  intros Hrange.
  rewrite (SetLogLevel_of_name c lvl Hrange). cbn [fst]. unfold log.
  cbn [LoggerLevel set_LoggerLevel].
  destruct (Z.gtb_spec level lvl); split; intros; try reflexivity;
    try discriminate; lia.
Qed.

End LogLevel.

Lemma log_level_round_trip_witness :
  SetLogLevel (Scenario.client "" "" "") "warning"
  = (set_LoggerLevel 2 (Scenario.client "" "" ""), None).
Proof.
  destruct (log_level_round_trip (Scenario.client "" "" "") 2) as [Hin _].
  destruct Hin as [Hset _]; [lia|]. exact Hset.
Defined.

Lemma SetLogLevel_ignores_case_witness :
  SetLogLevel (Scenario.client "" "" "") "DEBUG"
  = SetLogLevel (Scenario.client "" "" "") "Debug".
Proof.
  destruct (SetLogLevel_ignores_case (Scenario.client "" "" "") "Debug")
    as [Hupper _]; [reflexivity|].
  exact Hupper.
Defined.

Lemma log_threshold_witness :
  log unit (fun format _ => format)
    (fst (SetLogLevel (Scenario.client "" "" "") (LogLevelToString 2)))
    4 "HTTP client init Done" [] = None.
Proof.
  apply (log_threshold unit (fun format _ => format)
           (Scenario.client "" "" "") 2 4 "HTTP client init Done" []); lia.
Defined.

(** ** Signals *)

Section Signals.

Context `{GoRuntime}.

Variable Process_Signal :
  list (Z * eows.os_Signal) -> eows.Process -> eows.os_Signal -> error.

(** X23. Each name of the switch delivers its signal: with a process at
    hand, the describing name and the constant's name of a signal both
    deliver that signal, once, to the process of the command, and return
    what the operating system answered. *)
Theorem Signal_delivers (e : eows.ExecOverWS) (p : eows.Process)
    (long short signal : string) (sig : eows.os_Signal)
    (delivered : list (Z * eows.os_Signal)) :
  In (long, short, sig) eows.names ->
  signal = long \/ signal = short ->
  eows.proc e = Some p ->
  eows.Signal Process_Signal e signal delivered
  = (Process_Signal delivered p sig,
     (delivered ++ [(eows.Pid p, sig)])%list).
Proof.
  intros Hin Hname Hproc. unfold eows.Signal. cbn in Hin.
  repeat (destruct Hin as [Hin|Hin];
          [injection Hin as <- <- <-;
           destruct Hname as [-> | ->]; cbn; rewrite Hproc; reflexivity|]).
  contradiction.
Qed.

(** X24. Nothing is delivered on an error.  A name that is none of the
    twenty-two of the switch, compared byte for byte, is refused as
    unsupported whether there is a process or not; a name of the switch
    without a process is refused for the missing process. *)
Theorem Signal_refused (e : eows.ExecOverWS) (signal : string)
    (delivered : list (Z * eows.os_Signal)) :
  (~ In signal (map (fun n => fst (fst n)) eows.names
                ++ map (fun n => snd (fst n)) eows.names)%list ->
   eows.Signal Process_Signal e signal delivered
   = (Some "Unsupported signal", delivered))
  /\ (In signal (map (fun n => fst (fst n)) eows.names
                 ++ map (fun n => snd (fst n)) eows.names)%list ->
      eows.proc e = None ->
      eows.Signal Process_Signal e signal delivered
      = (Some "Cannot retrieve process", delivered)).
Proof.
  split.
  - intros Hnot. unfold eows.Signal, eows.signal_of.
    repeat match goal with
      | |- context [String.eqb signal ?x] =>
          destruct (String.eqb_spec signal x) as [->|_];
          [exfalso; apply Hnot; cbn; tauto|]
      end.
    cbn. unfold fmt_Errorf. rewrite fmt_Sprintf_plain by reflexivity.
    reflexivity.
  - intros Hin Hproc. unfold eows.Signal. rewrite Hproc. cbn in Hin.
    repeat (destruct Hin as [<-|Hin];
            [cbn; unfold fmt_Errorf;
             rewrite fmt_Sprintf_plain by reflexivity; reflexivity|]).
    contradiction.
Qed.

End Signals.

Lemma Signal_delivers_witness :
  eows.Signal (fun _ _ _ => None)
    {| eows.proc := Some {| eows.Pid := 4242 |} |} "terminated" []
  = (None, [(4242, eows.SIGTERM)]).
Proof.
  apply (Signal_delivers (fun _ _ _ => None)
           {| eows.proc := Some {| eows.Pid := 4242 |} |}
           {| eows.Pid := 4242 |} "terminated" "SIGTERM" "terminated"
           eows.SIGTERM []).
  - cbn. tauto.
  - left. reflexivity.
  - reflexivity.
Defined.

Lemma Signal_refused_witness :
  eows.Signal (fun _ _ _ => None)
    {| eows.proc := Some {| eows.Pid := 4242 |} |} "sigterm" []
  = (Some "Unsupported signal", []).
Proof.
  destruct (Signal_refused (fun _ _ _ => None)
              {| eows.proc := Some {| eows.Pid := 4242 |} |} "sigterm" [])
    as [Hunsupported _].
  apply Hunsupported. cbn. intuition discriminate.
Defined.
